(** * Basketball Clicker backend: leaderboard, presence and rate limiting

    A shallow embedding of [server.js]: the endpoints the game talks to
    (heartbeat and online count, the two leaderboard reads, the score
    submission), the two process-wide maps they share ([submitTimes] and
    [onlinePlayers]) and the SQL statements they send, read as functions on
    a table keyed by [username]. Handlers take the clock readings and the
    outcome of the database call as arguments and return the response with
    the next state. The admin [DELETE] route and the five-minute clean-up of
    the two maps are not covered. *)

From Stdlib Require Import ZArith Ascii String List Lia.
From stdpp Require Import base option list sorting gmap strings fin_maps fin_map_dom.

Local Open Scope Z_scope.

(** ** JavaScript strings

    A string is the sequence of its UTF-16 code units; the embedding covers
    the code units below 256 (Latin-1 text), one [ascii] each. *)

Module JsString.

Definition code (c : ascii) : Z := Z.of_N (N_of_ascii c).

(** The white space and line terminators [String.prototype.trim] and
    [parseInt] skip: TAB, LF, VT, FF, CR, SPACE and NBSP. *)
Definition isWhiteSpace (c : ascii) : bool :=
  let n := code c in
  ((9 <=? n) && (n <=? 13)) || (n =? 32) || (n =? 160).

Fixpoint trimStart (s : string) : string :=
  match s with
  | String c r => if isWhiteSpace c then trimStart r else s
  | EmptyString => EmptyString
  end.

Definition trimEnd (s : string) : string :=
  String.rev (trimStart (String.rev s)).

Definition trim (s : string) : string := trimEnd (trimStart s).

(** Upper-case letters are A-Z and, in Latin-1, U+00C0..U+00DE without the
    multiplication sign U+00D7; each has its lower case 32 places up. *)
Definition lowerChar (c : ascii) : ascii :=
  let n := code c in
  if ((65 <=? n) && (n <=? 90)) || ((192 <=? n) && (n <=? 222) && negb (n =? 215))
  then ascii_of_N (Z.to_N (n + 32))
  else c.

Fixpoint toLowerCase (s : string) : string :=
  match s with
  | String c r => String (lowerChar c) (toLowerCase r)
  | EmptyString => EmptyString
  end.

Definition length (s : string) : Z := Z.of_nat (String.length s).

Fixpoint every (p : ascii -> bool) (s : string) : bool :=
  match s with
  | String c r => p c && every p r
  | EmptyString => true
  end.

Definition isEmpty (s : string) : bool :=
  match s with EmptyString => true | String _ _ => false end.

(** The character class [[a-z0-9_]]. *)
Definition isNameChar (c : ascii) : bool :=
  let n := code c in
  ((97 <=? n) && (n <=? 122)) || ((48 <=? n) && (n <=? 57)) || (n =? 95).

(** [/^[a-z0-9_]+$/.test(s)]: one or more name characters and nothing
    else (without the [m] flag, [$] only matches at the very end). *)
Definition testName (s : string) : bool :=
  negb (isEmpty s) && every isNameChar s.

End JsString.

(** ** JavaScript numbers and values *)

Module Js.

(** A number is NaN, an infinity or a finite double; a finite double is
    [m * 2^e] for integers [m] and [e], and is kept as that pair. *)
Inductive Number : Type :=
| NaN
| Infinity (negative : bool)
| Fin (m e : Z).

Definition ofZ (z : Z) : Number := Fin z 0.

(** [floor (m * 2^e)]: a left shift for [0 <= e], an arithmetic right
    shift (which rounds towards minus infinity) for [e < 0]. *)
Definition floorZ (m e : Z) : Z := Z.shiftl m e.

(** [Math.floor]. *)
Definition Math_floor (n : Number) : Number :=
  match n with
  | Fin m e => Fin (floorZ m e) 0
  | other => other
  end.

(** What [express.json()] can leave in a field of [req.body]. An array or
    a plain object is kept as the string its conversion to a primitive
    gives (the empty string for [[]], ["7"] for [[7]], ["[object Object]"] for
    [{}]), or
    [None] where that conversion throws a [TypeError] (both [valueOf] and
    [toString] shadowed by data). *)
Inductive Value : Type :=
| Undefined
| Null
| Bool (b : bool)
| Num (n : Number)
| Str (s : string)
| Obj (primitive : option string).

(** ToBoolean: the falsy values are [undefined], [null], [false], [0],
    [NaN] and the empty string. *)
Definition truthy (v : Value) : bool :=
  match v with
  | Undefined | Null => false
  | Bool b => b
  | Num NaN => false
  | Num (Infinity _) => true
  | Num (Fin m _) => negb (m =? 0)
  | Str s => negb (JsString.isEmpty s)
  | Obj _ => true
  end.

(** [typeof v === 'string']. *)
Definition isString (v : Value) : bool :=
  match v with Str _ => true | _ => false end.

(** [a || b]. *)
Definition or (a b : Value) : Value := if truthy a then a else b.

End Js.

(** ** [parseInt] *)

Module JsParse.
Import JsString.

(** The value of a digit in radix 36 and below. *)
Definition digitValue (c : ascii) : option Z :=
  let n := code c in
  if (48 <=? n) && (n <=? 57) then Some (n - 48)
  else if (97 <=? n) && (n <=? 122) then Some (n - 87)
  else if (65 <=? n) && (n <=? 90) then Some (n - 55)
  else None.

(** The longest prefix of radix-[R] digits, read as an integer; [acc] is
    [None] until the first digit has been seen. *)
Fixpoint digits (R : Z) (acc : option Z) (s : string) : option Z :=
  match s with
  | String c r =>
      match digitValue c with
      | Some d => if d <? R then digits R (Some (default 0 acc * R + d)) r else acc
      | None => acc
      end
  | EmptyString => acc
  end.

Definition signOf (s : string) : Z * string :=
  match s with
  | String "-" r => (-1, r)
  | String "+" r => (1, r)
  | _ => (1, s)
  end.

Definition radixOf (s : string) : Z * string :=
  match s with
  | String "0" (String "x" r) => (16, r)
  | String "0" (String "X" r) => (16, r)
  | _ => (10, s)
  end.

(** [parseInt(input)] with no radix argument; [None] is NaN. The result
    is the exact integer: the double JavaScript rounds a long digit string
    to is zero, at most 1 or at least 100 exactly when the integer is, and
    the callers of [parseInt] here ask no more of it. *)
Definition parseInt (input : string) : option Z :=
  let '(sign, s1) := signOf (trimStart input) in
  let '(R, s2) := radixOf s1 in
  Z.mul sign <$> digits R None s2.

(** [parseInt] of a query parameter: a missing one is [undefined], which
    [parseInt] first turns into the string ["undefined"]; a repeated or
    bracketed one arrives as the string JavaScript converts it to. *)
Definition parseIntQuery (q : option string) : option Z :=
  parseInt (default "undefined"%string q).

End JsParse.

(** ** The leaderboard table

    [CREATE TABLE leaderboard]: [username] is [UNIQUE], so the table is a
    finite map from [username] to the other columns. The serial [id] is
    never read by any statement and is left out. *)

Record Stats : Type := mkStats {
  best_score : Z;     (* BIGINT *)
  total_earned : Z;   (* BIGINT *)
  prestiges : Z;      (* INT *)
  clicks : Z;         (* BIGINT *)
  play_time : Z       (* INT *)
}.

Record Row : Type := mkRow {
  stats : Stats;
  updated_at : Z
}.

Global Instance Stats_eq_dec : EqDecision Stats.
Proof. solve_decision. Defined.

Global Instance Row_eq_dec : EqDecision Row.
Proof. solve_decision. Defined.

Inductive ColumnType : Type := BIGINT | INT.

Definition inRange (ty : ColumnType) (z : Z) : bool :=
  match ty with
  | BIGINT => (- 2 ^ 63 <=? z) && (z <? 2 ^ 63)
  | INT => (- 2 ^ 31 <=? z) && (z <? 2 ^ 31)
  end.

(** [GREATEST] column by column. *)
Definition greatest (old new : Stats) : Stats :=
  {| best_score := Z.max (best_score old) (best_score new);
     total_earned := Z.max (total_earned old) (total_earned new);
     prestiges := Z.max (prestiges old) (prestiges new);
     clicks := Z.max (clicks old) (clicks new);
     play_time := Z.max (play_time old) (play_time new) |}.

(** [INSERT ... ON CONFLICT (username) DO UPDATE SET col = GREATEST(
    leaderboard.col, EXCLUDED.col), updated_at = NOW()], once the five
    values are bound. *)
Definition upsert (tbl : gmap string Row) (username : string) (excluded : Stats)
    (NOW : Z) : gmap string Row :=
  match tbl !! username with
  | None => <[username := {| stats := excluded; updated_at := NOW |}]> tbl
  | Some r =>
      <[username := {| stats := greatest (stats r) excluded; updated_at := NOW |}]> tbl
  end.

(** [ORDER BY best_score DESC]. *)
Definition scoreDesc (a b : string * Row) : Prop :=
  best_score (stats b.2) <= best_score (stats a.2).

Global Instance scoreDesc_dec : RelDecision scoreDesc.
Proof. intros a b. unfold scoreDesc. apply _. Defined.

(** [SELECT username, best_score, total_earned, prestiges, clicks, play_time
    FROM leaderboard ORDER BY best_score DESC LIMIT n]. SQL leaves the order
    of rows with equal [best_score] open; here the sort settles it, and no
    statement below depends on how. *)
Definition selectTop (tbl : gmap string Row) (n : Z) : list (string * Stats) :=
  prod_map id stats <$> take (Z.to_nat n) (merge_sort scoreDesc (map_to_list tbl)).

(** [SELECT COUNT( * )+1 FROM leaderboard WHERE best_score > l.best_score]. *)
Definition rankAbove (tbl : gmap string Row) (score : Z) : nat :=
  length (filter (fun kv : string * Row => score < best_score (stats kv.2))
                 (map_to_list tbl)) + 1.

(** [SELECT username, ..., (SELECT COUNT( * )+1 ...) AS rank FROM leaderboard l
    WHERE username = $1], then [rows[0] || null]. *)
Definition selectPlayer (tbl : gmap string Row) (username : string)
    : option (string * Stats * nat) :=
  r ← tbl !! username;
  Some (username, stats r, rankAbove tbl (best_score (stats r))).

(** ** Requests, responses and the state of the process *)

(** The fields [POST /api/leaderboard] destructures from [req.body], the
    object [express.json()] leaves for a JSON request; a field the body does
    not have is [Js.Undefined]. *)
Record Body : Type := mkBody {
  body_username : Js.Value;
  body_best_score : Js.Value;
  body_total_earned : Js.Value;
  body_prestiges : Js.Value;
  body_clicks : Js.Value;
  body_play_time : Js.Value
}.

(** [x_forwarded_for] is [req.headers['x-forwarded-for']] and
    [remoteAddress] is [req.socket.remoteAddress]; either can be
    [undefined], here [None]. *)
Record Submission : Type := mkSubmission {
  x_forwarded_for : option string;
  remoteAddress : option string;
  body : Body
}.

Inductive ErrorText : Type :=
| NoDatabase          (* 'No database configured' *)
| TooFast             (* 'Too fast ... wait 10s' *)
| UsernameRequired    (* 'Username required' *)
| UsernameShape       (* 'Username: 1-20 chars, alphanumeric + underscore' *)
| FetchFailed         (* 'Failed to fetch leaderboard' *)
| PlayerFetchFailed   (* 'Failed to fetch player' *)
| SubmitFailed.       (* 'Failed to submit score' *)

Inductive Json : Type :=
| Online (count : nat)                            (* { online: count } *)
| Rows (rows : list (string * Stats))
| Player (row : option (string * Stats * nat))    (* a row with its rank, or null *)
| Ok                                              (* { ok: true } *)
| Error (e : ErrorText).                          (* { error: ... } *)

Record Response : Type := mkResponse {
  status : Z;
  json : Json
}.

(** [res.json(v)] answers 200, [res.status(c).json(v)] answers [c]. *)
Definition res_json (v : Json) : Response := {| status := 200; json := v |}.
Definition res_status_json (c : Z) (v : Json) : Response := {| status := c; json := v |}.

(** [pool] is [None] when no database was configured, otherwise it gives
    access to the table. The keys of [submitTimes] are the values of [ip],
    a string or [undefined]. *)
Record State : Type := mkState {
  pool : option (gmap string Row);
  submitTimes : gmap (option string) Z;
  onlinePlayers : gmap string Z
}.

(** What the database adds to one [pool.query] call: whether the call is
    rejected for a reason of its own (connection lost, table missing), and
    the value of [NOW()]. *)
Record Query : Type := mkQuery {
  rejects : bool;
  NOW : Z
}.

(** ** Presence *)

(** [for (const [, t] of onlinePlayers) if (t > cutoff) count++]. *)
Definition countAfter (cutoff : Z) (players : gmap string Z) : nat :=
  map_fold (fun _ t count => if cutoff <? t then S count else count) 0%nat players.

(** [GET /api/online], at time [now = Date.now()]. *)
Definition get_online (st : State) (now : Z) : Response :=
  let cutoff := now - 60000 in
  res_json (Online (countAfter cutoff (onlinePlayers st))).

(** [POST /api/ping]; [username] is [req.body.username], and [Date.now()]
    is read twice: [t_set] for the entry, [t_count] for the cutoff. *)
Definition post_ping (st : State) (username : Js.Value) (t_set t_count : Z)
    : Response * State :=
  let st1 :=
    if Js.truthy username && Js.isString username then
      match username with
      | Js.Str s =>
          {| pool := pool st;
             submitTimes := submitTimes st;
             onlinePlayers :=
               <[JsString.toLowerCase (JsString.trim s) := t_set]> (onlinePlayers st) |}
      | _ => st
      end
    else st in
  let cutoff := t_count - 60000 in
  (res_json (Online (countAfter cutoff (onlinePlayers st1))), st1).

(** ** Reading the leaderboard *)

(** [Math.min(Math.max(parseInt(req.query.limit) || 50, 1), 100)]. *)
Definition effectiveLimit (limit : option string) : Z :=
  let parsed :=
    match JsParse.parseIntQuery limit with
    | Some n => if n =? 0 then 50 else n
    | None => 50
    end in
  Z.min (Z.max parsed 1) 100.

(** [GET /api/leaderboard?limit=...]. *)
Definition get_leaderboard (st : State) (limit : option string) (q : Query) : Response :=
  match pool st with
  | None => res_json (Rows [])
  | Some tbl =>
      let limit := effectiveLimit limit in
      if rejects q then res_status_json 500 (Error FetchFailed)
      else res_json (Rows (selectTop tbl limit))
  end.

(** [GET /api/leaderboard/:username]; [name] is [req.params.username]. *)
Definition get_player (st : State) (name : string) (q : Query) : Response :=
  match pool st with
  | None => res_json (Player None)
  | Some tbl =>
      let username := JsString.toLowerCase name in
      if rejects q then res_status_json 500 (Error PlayerFetchFailed)
      else res_json (Player (selectPlayer tbl username))
  end.

(** ** Removing a player *)

(** The two error texts of the [DELETE] route. *)
Inductive DeleteError : Type :=
| DeleteNoDatabase    (* 'No database configured' *)
| DeleteFailed.       (* 'Failed to delete player' *)

(** The answer of the [DELETE] route: [{ ok: true }] when [delete_error] is
    [None], [{ error: ... }] otherwise. *)
Record DeleteResponse : Type := mkDeleteResponse {
  delete_status : Z;
  delete_error : option DeleteError
}.

(** [DELETE /api/leaderboard/:username]: [DELETE FROM leaderboard WHERE
    username = $1] on the lower-cased parameter. *)
Definition delete_player (st : State) (name : string) (q : Query)
    : DeleteResponse * State :=
  match pool st with
  | None => ({| delete_status := 503; delete_error := Some DeleteNoDatabase |}, st)
  | Some tbl =>
      let username := JsString.toLowerCase name in
      if rejects q
      then ({| delete_status := 500; delete_error := Some DeleteFailed |}, st)
      else ({| delete_status := 200; delete_error := None |},
            {| pool := Some (delete username tbl);
               submitTimes := submitTimes st;
               onlinePlayers := onlinePlayers st |})
  end.

(** ** The five-minute clean-up *)

(** [for (const [k, t] of m) if (t < cutoff) m.delete(k)]: every entry of
    the map is visited once, also when entries are deleted on the way. *)
Definition reapOlder `{Countable K} (cutoff : Z) (m : gmap K Z) : gmap K Z :=
  map_fold (fun k t kept => if t <? cutoff then delete k kept else kept) m m.

(** The body of the [setInterval] callback; [Date.now()] is read twice,
    [t_rate] for the rate-limit map and [t_online] for the presence map. *)
Definition cleanup (st : State) (t_rate t_online : Z) : State :=
  {| pool := pool st;
     submitTimes := reapOlder (t_rate - 15000) (submitTimes st);
     onlinePlayers := reapOlder (t_online - 60000) (onlinePlayers st) |}.

(** The stored record of an identity. *)
Definition stored (st : State) (username : string) : option Row :=
  tbl ← pool st; tbl !! username.

(** The five numeric columns, by name. *)
Inductive Field : Type := BestScore | TotalEarned | Prestiges | Clicks | PlayTime.

Definition column (f : Field) (s : Stats) : Z :=
  match f with
  | BestScore => best_score s
  | TotalEarned => total_earned s
  | Prestiges => prestiges s
  | Clicks => clicks s
  | PlayTime => play_time s
  end.

Definition columnType (f : Field) : ColumnType :=
  match f with
  | BestScore | TotalEarned | Clicks => BIGINT
  | Prestiges | PlayTime => INT
  end.

Definition bodyField (f : Field) (b : Body) : Js.Value :=
  match f with
  | BestScore => body_best_score b
  | TotalEarned => body_total_earned b
  | Prestiges => body_prestiges b
  | Clicks => body_clicks b
  | PlayTime => body_play_time b
  end.

(** ** The behaviour the specification words, for comparison *)

Module Spec.

(** [m] is the maximum of the values [l]. *)
Definition is_maximum (m : Z) (l : list Z) : Prop :=
  m ∈ l ∧ ∀ y, y ∈ l → y <= m.

(** "returns false (reject) if an entry exists for originKey and
    now - lastAccepted < cooldown; otherwise records now as the new
    lastAccepted and returns true (accept)". *)
Definition tryAccept (times : gmap (option string) Z) (originKey : option string)
    (now : Z) : bool * gmap (option string) Z :=
  match times !! originKey with
  | Some lastAccepted =>
      if now - lastAccepted <? 10000 then (false, times)
      else (true, <[originKey := now]> times)
  | None => (true, <[originKey := now]> times)
  end.

(** "the count of entries whose timestamp is within the last 60 seconds,
    inclusive of now-minus-window". *)
Definition countOnline (players : gmap string Z) (now : Z) : nat :=
  size (filter (fun kv : string * Z => now - kv.2 <= 60000) players).

(** "limit clamped to [1, 100]". *)
Definition clamp (limit : Z) : Z := Z.min (Z.max limit 1) 100.

(** "missing store: reject before rate check (503); then rate-limit check
    (429); then username shape check (400); then merge (500 on storage
    failure, 200 on success)". *)
Definition statusInOrder (storeMissing coolingDown malformed storageFails : bool) : Z :=
  if storeMissing then 503
  else if coolingDown then 429
  else if malformed then 400
  else if storageFails then 500
  else 200.

End Spec.

(** ** A runtime to run examples on

    Examples below submit numbers only and stay far below [1e21]: on them
    the text of an integer is the integer, and no string is read as a
    number. *)

Definition plainText (z : Z) : option Z :=
  if Z.abs z <? 10 ^ 21 then Some z else None.

Definition notNumeric (s : string) : Js.Number := Js.NaN.

(** Sample inputs: a process with an empty table and empty maps, a
    submission that carries a name and a best score from a given address,
    and a database call that succeeds at a given time. *)
Module Samples.

Definition number (z : Z) : Js.Value := Js.Num (Js.ofZ z).

Definition scores (name : string) (best : Js.Value) : Body :=
  {| body_username := Js.Str name;
     body_best_score := best;
     body_total_earned := Js.Undefined;
     body_prestiges := Js.Undefined;
     body_clicks := Js.Undefined;
     body_play_time := Js.Undefined |}.

Definition from (ip : string) (b : Body) : Submission :=
  {| x_forwarded_for := None; remoteAddress := Some ip; body := b |}.

Definition fresh : State :=
  {| pool := Some ∅; submitTimes := ∅; onlinePlayers := ∅ |}.

Definition succeeds (t : Z) : Query := {| rejects := false; NOW := t |}.

(** A table that already holds a record for bob, and two submissions for
    him from one address, twenty seconds apart. *)
Definition bobRow : Row :=
  {| stats := mkStats 10 0 0 0 0; updated_at := 0 |}.

Definition holding : State :=
  {| pool := Some {[ "bob"%string := bobRow ]};
     submitTimes := ∅; onlinePlayers := ∅ |}.

Definition twoSubmissions : list (Submission * Z * Query) :=
  [ (from "10.0.0.1" (scores "bob" (number 7)), 20000, succeeds 1);
    (from "10.0.0.1" (scores " Bob " (number 30)), 40000, succeeds 2) ].

(** The table of four players with best scores 100, 80, 80 and 50. *)
Definition player (score : Z) : Row :=
  {| stats := mkStats score 0 0 0 0; updated_at := 0 |}.

Definition fourPlayers : State :=
  {| pool := Some (<["ann"%string := player 100]>
                  (<["ben"%string := player 80]>
                  (<["cat"%string := player 80]>
                  (<["dan"%string := player 50]> ∅))));
     submitTimes := ∅; onlinePlayers := ∅ |}.

End Samples.

(** ** Submitting a score *)

Section Server.

(** Two conversions of the JavaScript runtime are left open.
    [StringToNumber s] is the number JavaScript reads from the string [s]
    (NaN where [s] is no numeric literal). [decimalText z] is the integer
    a database integer column reads from the text
    [Number.prototype.toString] prints for the integral double [z]: the
    driver sends every number as that text. It prints at most 17
    significant digits and switches to exponent notation from [1e21],
    which no integer column accepts, here [None]; integers up to [2^53]
    in magnitude are printed digit for digit. *)
Variable StringToNumber : string -> Js.Number.
Variable decimalText : Z -> option Z.
Hypothesis decimalText_safe :
  forall z, - 2 ^ 53 <= z <= 2 ^ 53 -> decimalText z = Some z.

(** ToNumber; [None] where it throws. *)
Definition ToNumber (v : Js.Value) : option Js.Number :=
  match v with
  | Js.Undefined => Some Js.NaN
  | Js.Null => Some (Js.ofZ 0)
  | Js.Bool b => Some (Js.ofZ (if b then 1 else 0))
  | Js.Num n => Some n
  | Js.Str s => Some (StringToNumber s)
  | Js.Obj (Some s) => Some (StringToNumber s)
  | Js.Obj None => None
  end.

(** [Math.floor(field || 0)]. *)
Definition floorOrZero (field : Js.Value) : option Js.Number :=
  Js.Math_floor <$> ToNumber (Js.or field (Js.Num (Js.ofZ 0))).

(** A number has an integer value when shifting its floor back returns
    the mantissa. *)
Definition isInteger (m e : Z) : bool := Z.shiftl (Js.floorZ m e) (- e) =? m.

(** Binding a number parameter to a column of type [ty]: the text must be
    an integer literal within the range of the type, otherwise the
    statement fails. *)
Definition bind (ty : ColumnType) (n : Js.Number) : option Z :=
  match n with
  | Js.Fin m e =>
      if isInteger m e then
        z ← decimalText (Js.floorZ m e);
        if inRange ty z then Some z else None
      else None
  | _ => None
  end.

(** The values [$2] to [$6] of the submit statement. *)
Definition bindStats (p2 p3 p4 p5 p6 : Js.Number) : option Stats :=
  v2 ← bind BIGINT p2;
  v3 ← bind BIGINT p3;
  v4 ← bind INT p4;
  v5 ← bind BIGINT p5;
  v6 ← bind INT p6;
  Some {| best_score := v2; total_earned := v3; prestiges := v4;
          clicks := v5; play_time := v6 |}.

(** The [try] block of [POST /api/leaderboard]: the parameter array is
    built first, then the statement runs; [None] when either throws. The
    name [clean] has passed validation, so it fits [VARCHAR(20)]. *)
Definition submitQuery (tbl : gmap string Row) (clean : string) (b : Body) (q : Query)
    : option (gmap string Row) :=
  p2 ← floorOrZero (body_best_score b);
  p3 ← floorOrZero (body_total_earned b);
  p4 ← floorOrZero (body_prestiges b);
  p5 ← floorOrZero (body_clicks b);
  p6 ← floorOrZero (body_play_time b);
  if rejects q then None
  else excluded ← bindStats p2 p3 p4 p5 p6; Some (upsert tbl clean excluded (NOW q)).

(** [req.headers['x-forwarded-for'] || req.socket.remoteAddress]. *)
Definition originOf (rq : Submission) : option string :=
  match x_forwarded_for rq with
  | Some h => if JsString.isEmpty h then remoteAddress rq else Some h
  | None => remoteAddress rq
  end.

(** [submitTimes.get(ip) || 0]. *)
Definition lastSubmit (times : gmap (option string) Z) (ip : option string) : Z :=
  match times !! ip with
  | Some t => if t =? 0 then 0 else t
  | None => 0
  end.

(** The second username check, on the normalised name. *)
Definition badShape (clean : string) : bool :=
  (JsString.length clean <? 1) || (20 <? JsString.length clean)
  || negb (JsString.testName clean).

(** [POST /api/leaderboard], at time [now = Date.now()]. *)
Definition post_leaderboard (st : State) (rq : Submission) (now : Z) (q : Query)
    : Response * State :=
  match pool st with
  | None => (res_status_json 503 (Error NoDatabase), st)
  | Some tbl =>
      let ip := originOf rq in
      let last := lastSubmit (submitTimes st) ip in
      if now - last <? 10000 then (res_status_json 429 (Error TooFast), st)
      else
        let times := <[ip := now]> (submitTimes st) in
        let st1 := {| pool := pool st; submitTimes := times;
                      onlinePlayers := onlinePlayers st |} in
        let username := body_username (body rq) in
        if negb (Js.truthy username) || negb (Js.isString username)
        then (res_status_json 400 (Error UsernameRequired), st1)
        else
          match username with
          | Js.Str s =>
              let clean := JsString.toLowerCase (JsString.trim s) in
              if badShape clean
              then (res_status_json 400 (Error UsernameShape), st1)
              else
                match submitQuery tbl clean (body rq) q with
                | Some tbl' =>
                    (res_json Ok,
                     {| pool := Some tbl'; submitTimes := times;
                        onlinePlayers := onlinePlayers st |})
                | None => (res_status_json 500 (Error SubmitFailed), st1)
                end
          | _ => (res_status_json 400 (Error UsernameRequired), st1)
          end
  end.

(** *** What a submission carries

    The identity and the five values a submission puts before the store:
    the two username checks, and the parameter array once bound. *)

Definition submittedName (b : Body) : option string :=
  match body_username b with
  | Js.Str s =>
      let clean := JsString.toLowerCase (JsString.trim s) in
      if JsString.isEmpty s || badShape clean then None else Some clean
  | _ => None
  end.

Definition submittedStats (b : Body) : option Stats :=
  p2 ← floorOrZero (body_best_score b);
  p3 ← floorOrZero (body_total_earned b);
  p4 ← floorOrZero (body_prestiges b);
  p5 ← floorOrZero (body_clicks b);
  p6 ← floorOrZero (body_play_time b);
  bindStats p2 p3 p4 p5 p6.

(** *** Serving submissions one after the other

    An event is a submission with the clock reading and the database's
    contribution at the time it is handled. *)

Definition serve1 (st : State) (ev : Submission * Z * Query) : Response * State :=
  post_leaderboard st ev.1.1 ev.1.2 ev.2.

Fixpoint serve (st : State) (events : list (Submission * Z * Query)) : State :=
  match events with
  | [] => st
  | ev :: rest => serve (serve1 st ev).2 rest
  end.

(** The values submitted for [username] by the events answered 200, in
    the order they were served. *)
Fixpoint acceptedFor (username : string) (st : State)
    (events : list (Submission * Z * Query)) : list Stats :=
  match events with
  | [] => []
  | ev :: rest =>
      let '(resp, st') := serve1 st ev in
      let b := body ev.1.1 in
      match submittedStats b with
      | Some v =>
          if (status resp =? 200) && bool_decide (submittedName b = Some username)
          then v :: acceptedFor username st' rest
          else acceptedFor username st' rest
      | None => acceptedFor username st' rest
      end
  end.

(** The state once the rate check has passed. *)
Definition stamped (st : State) (rq : Submission) (now : Z) : State :=
  {| pool := pool st;
     submitTimes := <[originOf rq := now]> (submitTimes st);
     onlinePlayers := onlinePlayers st |}.

(** Whether the [try] block of a submission that got that far throws. *)
Definition mergeFails (st : State) (rq : Submission) (q : Query) : bool :=
  match pool st, submittedName (body rq) with
  | Some tbl, Some u => bool_decide (submitQuery tbl u (body rq) q = None)
  | _, _ => false
  end.

(** *** The process as a whole

    Everything that reaches the process: the six routes and the clean-up
    timer, each with the clock readings and database outcome it meets. The
    three reading routes leave the state as it is. *)

Inductive Request : Type :=
| Ping (username : Js.Value) (t_set t_count : Z)
| GetOnline (now : Z)
| GetLeaderboard (limit : option string) (q : Query)
| GetPlayer (name : string) (q : Query)
| Submit (rq : Submission) (now : Z) (q : Query)
| Delete (name : string) (q : Query)
| Cleanup (t_rate t_online : Z).

Definition handle (st : State) (r : Request) : State :=
  match r with
  | Ping username t_set t_count => (post_ping st username t_set t_count).2
  | GetOnline _ | GetLeaderboard _ _ | GetPlayer _ _ => st
  | Submit rq now q => (post_leaderboard st rq now q).2
  | Delete name q => (delete_player st name q).2
  | Cleanup t_rate t_online => cleanup st t_rate t_online
  end.

Definition run (st : State) (requests : list Request) : State :=
  foldl handle st requests.

(** The clock readings of the submissions from origin [ip] that got past
    the rate check (answered neither 503 nor 429), in the order served. *)
Fixpoint passedAt (ip : option string) (st : State)
    (events : list (Submission * Z * Query)) : list Z :=
  match events with
  | [] => []
  | ev :: rest =>
      let '(resp, st') := serve1 st ev in
      if bool_decide (originOf ev.1.1 = ip)
         && negb (status resp =? 503) && negb (status resp =? 429)
      then ev.1.2 :: passedAt ip st' rest
      else passedAt ip st' rest
  end.

(** A stored identity has the shape the submit route lets through. *)
Definition canonical (username : string) : Prop :=
  JsString.testName username = true ∧ JsString.length username <= 20.

(** ** Facts about the submit handler *)

Lemma post_without_pool st rq now q :
  pool st = None →
  post_leaderboard st rq now q = (res_status_json 503 (Error NoDatabase), st).
Proof. intros H. unfold post_leaderboard. by rewrite H. Qed.

Lemma post_cooling_down st rq now q tbl :
  pool st = Some tbl →
  now - lastSubmit (submitTimes st) (originOf rq) < 10000 →
  post_leaderboard st rq now q = (res_status_json 429 (Error TooFast), st).
Proof.
  intros H Hc. unfold post_leaderboard. rewrite H.
  by destruct (Z.ltb_spec (now - lastSubmit (submitTimes st) (originOf rq)) 10000); [|lia].
Qed.

Lemma post_malformed st rq now q tbl :
  pool st = Some tbl →
  10000 <= now - lastSubmit (submitTimes st) (originOf rq) →
  submittedName (body rq) = None →
  status (post_leaderboard st rq now q).1 = 400
  ∧ (post_leaderboard st rq now q).2 = stamped st rq now.
Proof.
  intros H Hc Hn. unfold post_leaderboard. rewrite H.
  destruct (Z.ltb_spec (now - lastSubmit (submitTimes st) (originOf rq)) 10000); [lia|].
  unfold submittedName in Hn. unfold stamped. rewrite H.
  destruct (body_username (body rq)) as [| |b|n|s|o]; simpl in *.
  1-4,6: by repeat case_match.
  destruct (JsString.isEmpty s); simpl in *; [done|].
  by destruct (badShape _).
Qed.

Lemma post_well_formed st rq now q tbl u :
  pool st = Some tbl →
  10000 <= now - lastSubmit (submitTimes st) (originOf rq) →
  submittedName (body rq) = Some u →
  post_leaderboard st rq now q =
    match submitQuery tbl u (body rq) q with
    | Some tbl' =>
        (res_json Ok,
         {| pool := Some tbl';
            submitTimes := <[originOf rq := now]> (submitTimes st);
            onlinePlayers := onlinePlayers st |})
    | None => (res_status_json 500 (Error SubmitFailed), stamped st rq now)
    end.
Proof.
  intros H Hc Hn. unfold post_leaderboard. rewrite H.
  destruct (Z.ltb_spec (now - lastSubmit (submitTimes st) (originOf rq)) 10000); [lia|].
  unfold submittedName in Hn.
  destruct (body_username (body rq)) as [| |b|n|s|o]; simpl; try done.
  destruct (JsString.isEmpty s); simpl in *; [done|].
  destruct (badShape _); [done|]. injection Hn as <-.
  unfold stamped. rewrite H. done.
Qed.

Lemma submitQuery_unfold tbl u b q :
  submitQuery tbl u b q =
    if rejects q then None
    else (fun v => upsert tbl u v (NOW q)) <$> submittedStats b.
Proof.
  unfold submitQuery, submittedStats.
  destruct (floorOrZero (body_best_score b)) as [p2|]; simpl; [|by destruct (rejects q)].
  destruct (floorOrZero (body_total_earned b)) as [p3|]; simpl; [|by destruct (rejects q)].
  destruct (floorOrZero (body_prestiges b)) as [p4|]; simpl; [|by destruct (rejects q)].
  destruct (floorOrZero (body_clicks b)) as [p5|]; simpl; [|by destruct (rejects q)].
  destruct (floorOrZero (body_play_time b)) as [p6|]; simpl; [|by destruct (rejects q)].
  destruct (rejects q); [done|].
  by destruct (bindStats p2 p3 p4 p5 p6).
Qed.

Lemma submitQuery_Some tbl u b q tbl' :
  submitQuery tbl u b q = Some tbl' ↔
  rejects q = false ∧ ∃ v, submittedStats b = Some v ∧ tbl' = upsert tbl u v (NOW q).
Proof.
  rewrite submitQuery_unfold. destruct (rejects q).
  - split; [done|]. by intros [? _].
  - destruct (submittedStats b) as [v|]; simpl; split.
    + intros [= <-]. eauto.
    + by intros [_ (v' & [= <-] & ->)].
    + done.
    + by intros [_ (v' & ? & _)].
Qed.

(** Every answer of the handler falls under one of the four lemmas above;
    the two below read that backwards, from the status. *)
Lemma post_accepted st rq now q :
  status (post_leaderboard st rq now q).1 = 200 →
  ∃ tbl u v,
    pool st = Some tbl
    ∧ 10000 <= now - lastSubmit (submitTimes st) (originOf rq)
    ∧ submittedName (body rq) = Some u
    ∧ submittedStats (body rq) = Some v
    ∧ rejects q = false
    ∧ (post_leaderboard st rq now q).2 =
        {| pool := Some (upsert tbl u v (NOW q));
           submitTimes := <[originOf rq := now]> (submitTimes st);
           onlinePlayers := onlinePlayers st |}.
Proof.
  intros Hs. destruct (pool st) as [tbl|] eqn:Hp.
  2: { by rewrite post_without_pool in Hs. }
  destruct (Z.lt_ge_cases (now - lastSubmit (submitTimes st) (originOf rq)) 10000) as [Hc|Hc].
  { by rewrite (post_cooling_down _ _ _ _ _ Hp Hc) in Hs. }
  destruct (submittedName (body rq)) as [u|] eqn:Hn.
  2: { destruct (post_malformed _ _ _ q _ Hp Hc Hn) as [E _]. by rewrite E in Hs. }
  rewrite (post_well_formed _ _ _ q _ _ Hp Hc Hn) in Hs |- *.
  destruct (submitQuery tbl u (body rq) q) as [tbl'|] eqn:Hq; [|done].
  apply submitQuery_Some in Hq as (Hr & v & Hv & ->).
  by exists tbl, u, v.
Qed.

Lemma post_not_accepted st rq now q :
  status (post_leaderboard st rq now q).1 ≠ 200 →
  pool (post_leaderboard st rq now q).2 = pool st.
Proof.
  intros Hs. destruct (pool st) as [tbl|] eqn:Hp.
  2: { by rewrite post_without_pool. }
  destruct (Z.lt_ge_cases (now - lastSubmit (submitTimes st) (originOf rq)) 10000) as [Hc|Hc].
  { by rewrite (post_cooling_down _ _ _ _ _ Hp Hc). }
  destruct (submittedName (body rq)) as [u|] eqn:Hn.
  2: { destruct (post_malformed _ _ _ q _ Hp Hc Hn) as [_ ->]. done. }
  rewrite (post_well_formed _ _ _ q _ _ Hp Hc Hn) in Hs |- *.
  by destruct (submitQuery tbl u (body rq) q).
Qed.

(** ** Merging *)

Lemma column_greatest f a b :
  column f (greatest a b) = Z.max (column f a) (column f b).
Proof. by destruct f. Qed.

Lemma column_foldl_greatest f l s :
  column f (foldl greatest s l) = foldl Z.max (column f s) (column f <$> l).
Proof.
  revert s. induction l as [|v l IH]; intros s; simpl; [done|].
  by rewrite IH, column_greatest.
Qed.

Lemma foldl_max_ge l x : x <= foldl Z.max x l.
Proof.
  revert x. induction l as [|y l IH]; intros x; simpl; [lia|].
  specialize (IH (Z.max x y)). lia.
Qed.

Lemma foldl_max_is_maximum l x : Spec.is_maximum (foldl Z.max x l) (x :: l).
Proof.
  revert x. induction l as [|y l IH]; intros x; simpl.
  - split; [by left|]. intros z Hz. apply list_elem_of_singleton in Hz. lia.
  - destruct (IH (Z.max x y)) as [Hin Hub]. split.
    + apply elem_of_cons in Hin as [E|Hin].
      * rewrite E. destruct (Z.max_spec x y) as [[_ Hm]|[_ Hm]]; rewrite Hm.
        -- right. by left.
        -- by left.
      * right. by right.
    + assert (Z.max x y <= foldl Z.max (Z.max x y) l) as Hm by (apply Hub; by left).
      intros z. rewrite !elem_of_cons. intros [->|[->|Hz]]; [lia|lia|].
      apply Hub. by right.
Qed.

Lemma is_maximum_unique m m' l l' :
  Spec.is_maximum m l → Spec.is_maximum m' l' → l ≡ₚ l' → m = m'.
Proof.
  intros [Hin Hub] [Hin' Hub'] Hp.
  assert (m <= m') by (apply Hub'; by rewrite <- Hp).
  assert (m' <= m) by (apply Hub; by rewrite Hp).
  lia.
Qed.

Lemma upsert_lookup tbl u v t :
  upsert tbl u v t !! u =
    Some {| stats := from_option (fun r => greatest (stats r) v) v (tbl !! u);
            updated_at := t |}.
Proof.
  unfold upsert. destruct (tbl !! u) as [r|]; simpl; by rewrite lookup_insert_eq.
Qed.

Lemma upsert_lookup_ne tbl u u' v t :
  u ≠ u' → upsert tbl u v t !! u' = tbl !! u'.
Proof.
  intros Hne. unfold upsert. destruct (tbl !! u) as [r|]; by rewrite lookup_insert_ne.
Qed.

Lemma serve1_row st ev u r :
  stored st u = Some r →
  ∃ r', stored (serve1 st ev).2 u = Some r'
      ∧ stats r' = foldl greatest (stats r) (acceptedFor u st [ev]).
Proof.
  intros Hr. simpl. unfold serve1.
  destruct (decide (status (post_leaderboard st ev.1.1 ev.1.2 ev.2).1 = 200)) as [Hs|Hs].
  - destruct (post_accepted _ _ _ _ Hs) as (tbl & u' & v & Hp & _ & Hn & Hv & _ & E).
    destruct (post_leaderboard st ev.1.1 ev.1.2 ev.2) as [resp st'] eqn:Hpost.
    simpl in *. subst st'. rewrite Hv, Hs, Hn. simpl.
    unfold stored in *. rewrite Hp in Hr. simpl in *.
    case_bool_decide as Hu.
    + injection Hu as ->. rewrite upsert_lookup, Hr. simpl. eauto.
    + rewrite upsert_lookup_ne by congruence. eauto.
  - pose proof (post_not_accepted _ _ _ _ Hs) as Hp.
    destruct (post_leaderboard st ev.1.1 ev.1.2 ev.2) as [resp st'] eqn:Hpost.
    simpl in *. apply Z.eqb_neq in Hs. rewrite Hs. simpl.
    exists r. split; [by unfold stored in *; rewrite Hp|].
    by destruct (submittedStats _).
Qed.

Lemma acceptedFor_cons u st ev events :
  acceptedFor u st (ev :: events) =
    acceptedFor u st [ev] ++ acceptedFor u (serve1 st ev).2 events.
Proof.
  simpl. destruct (serve1 st ev) as [resp st']. simpl.
  destruct (submittedStats _); [|done].
  by destruct (_ && _).
Qed.

Lemma serve_row st events u r :
  stored st u = Some r →
  ∃ r', stored (serve st events) u = Some r'
      ∧ stats r' = foldl greatest (stats r) (acceptedFor u st events).
Proof.
  revert st r. induction events as [|ev events IH]; intros st r Hr.
  - exists r. by split.
  - destruct (serve1_row st ev u r Hr) as (r1 & Hr1 & E1).
    destruct (IH _ _ Hr1) as (r' & Hr' & E').
    exists r'. split; [done|].
    by rewrite acceptedFor_cons, foldl_app, <- E1.
Qed.

Lemma serve_app st e1 e2 : serve st (e1 ++ e2) = serve (serve st e1) e2.
Proof. revert st. induction e1 as [|ev e1 IH]; intros st; simpl; [done|]. by rewrite IH. Qed.

Lemma acceptedFor_app u st e1 e2 :
  acceptedFor u st (e1 ++ e2) = acceptedFor u st e1 ++ acceptedFor u (serve st e1) e2.
Proof.
  revert st. induction e1 as [|ev e1 IH]; intros st; [done|].
  rewrite <- app_comm_cons, (acceptedFor_cons u st ev (e1 ++ e2)),
    (acceptedFor_cons u st ev e1), IH.
  by rewrite app_assoc.
Qed.

Lemma serve1_fresh st ev u :
  stored st u = None →
  (acceptedFor u st [ev] = [] ∧ stored (serve1 st ev).2 u = None)
  ∨ ∃ v r, acceptedFor u st [ev] = [v]
         ∧ stored (serve1 st ev).2 u = Some r ∧ stats r = v.
Proof.
  intros Hr. simpl. unfold serve1.
  destruct (decide (status (post_leaderboard st ev.1.1 ev.1.2 ev.2).1 = 200)) as [Hs|Hs].
  - destruct (post_accepted _ _ _ _ Hs) as (tbl & u' & v & Hp & _ & Hn & Hv & _ & E).
    destruct (post_leaderboard st ev.1.1 ev.1.2 ev.2) as [resp st'] eqn:Hpost.
    simpl in *. subst st'. rewrite Hv, Hs, Hn. simpl.
    unfold stored in *. rewrite Hp in Hr. simpl in *.
    case_bool_decide as Hu.
    + injection Hu as ->. right. eexists _, _. split; [done|].
      rewrite upsert_lookup, Hr. simpl. by split.
    + left. by rewrite upsert_lookup_ne by congruence.
  - pose proof (post_not_accepted _ _ _ _ Hs) as Hp.
    destruct (post_leaderboard st ev.1.1 ev.1.2 ev.2) as [resp st'] eqn:Hpost.
    simpl in *. apply Z.eqb_neq in Hs. rewrite Hs. simpl. left.
    split; [by destruct (submittedStats _)|]. by unfold stored in *; rewrite Hp.
Qed.

Lemma serve_fresh st events u :
  stored st u = None →
  match acceptedFor u st events with
  | [] => stored (serve st events) u = None
  | v :: vs =>
      ∃ r', stored (serve st events) u = Some r' ∧ stats r' = foldl greatest v vs
  end.
Proof.
  revert st. induction events as [|ev events IH]; intros st Hr; [done|].
  rewrite acceptedFor_cons. simpl serve.
  destruct (serve1_fresh st ev u Hr) as [[-> Hr1]|(v & r & -> & Hr1 & <-)].
  - by apply IH.
  - simpl. destruct (serve_row _ events u r Hr1) as (r' & Hr' & E). eauto.
Qed.

(** C1. Serve any run of submissions to a process that holds a record for
    [username]. Afterwards the record is still there, and each of its five
    numeric columns is the maximum of the value stored at the start and
    the values submitted for that column by the submissions answered 200
    for this identity (a submitted value is the integer the handler binds,
    [Math.floor(field || 0)]). With one such submission the column is
    [max stored submitted]; no column is lower after more of the run than
    after less of it; a run from the same stored value that has the same
    submitted values in another order ends with the same value; and when
    the process had started without the record, the column is the maximum
    of all values submitted for it since. *)
Theorem merge_keeps_running_maximum st events username r f :
  stored st username = Some r →
  ∃ r',
    stored (serve st events) username = Some r'
    ∧ Spec.is_maximum (column f (stats r'))
        (column f (stats r) :: (column f <$> acceptedFor username st events))
    ∧ (∀ v, acceptedFor username st events = [v] →
         column f (stats r') = Z.max (column f (stats r)) (column f v))
    ∧ (∀ e1 e2, events = e1 ++ e2 →
         ∃ r1, stored (serve st e1) username = Some r1
             ∧ column f (stats r) <= column f (stats r1) <= column f (stats r'))
    ∧ (∀ st2 events2 r2,
         stored st2 username = Some r2 →
         column f (stats r2) = column f (stats r) →
         column f <$> acceptedFor username st2 events2
           ≡ₚ column f <$> acceptedFor username st events →
         ∃ r2', stored (serve st2 events2) username = Some r2'
              ∧ column f (stats r2') = column f (stats r'))
    ∧ (∀ st0 events0,
         stored st0 username = None →
         st = serve st0 events0 →
         Spec.is_maximum (column f (stats r'))
           (column f <$> acceptedFor username st0 (events0 ++ events))).
Proof.
  intros Hr.
  destruct (serve_row st events username r Hr) as (r' & Hr' & E).
  exists r'. split; [done|].
  assert (Spec.is_maximum (column f (stats r'))
            (column f (stats r) :: (column f <$> acceptedFor username st events))) as Hmax.
  { rewrite E, column_foldl_greatest. apply foldl_max_is_maximum. }
  split; [done|]. split; [|split; [|split]].
  - intros v Hv. rewrite E, Hv. simpl. apply column_greatest.
  - intros e1 e2 ->.
    destruct (serve_row st e1 username r Hr) as (r1 & Hr1 & E1).
    exists r1. split; [done|]. split.
    + rewrite E1, column_foldl_greatest. apply foldl_max_ge.
    + rewrite E, acceptedFor_app, foldl_app, <- E1, column_foldl_greatest.
      apply foldl_max_ge.
  - intros st2 events2 r2 Hr2 Hsame Hperm.
    destruct (serve_row st2 events2 username r2 Hr2) as (r2' & Hr2' & E2).
    exists r2'. split; [done|].
    eapply is_maximum_unique; [| exact Hmax |].
    + rewrite E2, column_foldl_greatest. apply foldl_max_is_maximum.
    + rewrite Hsame. by constructor.
  - intros st0 events0 Hnone ->.
    pose proof (serve_fresh st0 (events0 ++ events) username Hnone) as Hall.
    rewrite serve_app, Hr' in Hall.
    destruct (acceptedFor username st0 (events0 ++ events)) as [|v vs]; [done|].
    destruct Hall as (r'' & [= <-] & ->).
    rewrite column_foldl_greatest. apply foldl_max_is_maximum.
Qed.

Lemma greatest_absorbs a v : greatest (greatest a v) v = greatest a v.
Proof. unfold greatest. simpl. f_equal; lia. Qed.

Lemma greatest_same v : greatest v v = v.
Proof. destruct v. unfold greatest. simpl. f_equal; lia. Qed.

(** C8. Merging the same snapshot twice is idempotent: when a submission
    has been answered 200 and a second one with the same body is answered
    200 too, the second leaves the five merged columns of the identity's
    record, and every other record, as the first left them. ([updated_at]
    is set again, to the time of the second merge, as on every accepted
    submission.) *)
Theorem resubmission_keeps_columns st rq now q rq2 now2 q2 :
  status (post_leaderboard st rq now q).1 = 200 →
  body rq2 = body rq →
  status (post_leaderboard (post_leaderboard st rq now q).2 rq2 now2 q2).1 = 200 →
  ∃ username tbl1 r1,
    submittedName (body rq) = Some username
    ∧ pool (post_leaderboard st rq now q).2 = Some tbl1
    ∧ tbl1 !! username = Some r1
    ∧ pool (post_leaderboard (post_leaderboard st rq now q).2 rq2 now2 q2).2 =
        Some (<[username := {| stats := stats r1; updated_at := NOW q2 |}]> tbl1).
Proof.
  intros H1 Hb H2.
  destruct (post_accepted _ _ _ _ H1) as (tbl & u & v & Hp & _ & Hn & Hv & _ & E1).
  destruct (post_accepted _ _ _ _ H2) as (tbl1 & u2 & v2 & Hp2 & _ & Hn2 & Hv2 & _ & E2).
  rewrite Hb in Hn2, Hv2. simplify_eq.
  rewrite E1 in Hp2. simpl in Hp2. injection Hp2 as <-.
  exists u, (upsert tbl u v (NOW q)),
    {| stats := from_option (λ r, greatest (stats r) v) v (tbl !! u);
       updated_at := NOW q |}.
  split; [done|]. split; [by rewrite E1|]. split; [apply upsert_lookup|].
  rewrite E2. simpl. f_equal.
  unfold upsert at 1. rewrite upsert_lookup. simpl. do 3 f_equal.
  destruct (tbl !! u) as [r|]; simpl; [apply greatest_absorbs | apply greatest_same].
Qed.

(** ** What a created record holds *)

Lemma submittedStats_column b v f :
  submittedStats b = Some v →
  ∃ n, floorOrZero (bodyField f b) = Some n ∧ bind (columnType f) n = Some (column f v).
Proof.
  unfold submittedStats, bindStats. intros H.
  destruct (floorOrZero (body_best_score b)) as [p2|] eqn:F2; [|done].
  destruct (floorOrZero (body_total_earned b)) as [p3|] eqn:F3; [|done].
  destruct (floorOrZero (body_prestiges b)) as [p4|] eqn:F4; [|done].
  destruct (floorOrZero (body_clicks b)) as [p5|] eqn:F5; [|done].
  destruct (floorOrZero (body_play_time b)) as [p6|] eqn:F6; [|done].
  cbn [mbind option_bind] in H.
  destruct (bind BIGINT p2) as [v2|] eqn:E2; [|done].
  destruct (bind BIGINT p3) as [v3|] eqn:E3; [|done].
  destruct (bind INT p4) as [v4|] eqn:E4; [|done].
  destruct (bind BIGINT p5) as [v5|] eqn:E5; [|done].
  destruct (bind INT p6) as [v6|] eqn:E6; [|done].
  cbn [mbind option_bind] in H.
  injection H as <-.
  destruct f; cbn [bodyField columnType column]; eexists; (split; eassumption).
Qed.

Lemma bind_Some ty n c :
  bind ty n = Some c →
  ∃ m e, n = Js.Fin m e ∧ decimalText (Js.floorZ m e) = Some c ∧ inRange ty c = true.
Proof.
  destruct n as [|?|m e]; simpl; [done|done|].
  destruct (isInteger m e); [|done].
  destruct (decimalText (Js.floorZ m e)) as [z|] eqn:Hd; simpl; [|done].
  destruct (inRange ty z) eqn:Hr; [|done]. intros [= <-]. by exists m, e.
Qed.

Lemma floorZ_0_r m : Js.floorZ m 0 = m.
Proof. apply Z.shiftl_0_r. Qed.

Lemma floorOrZero_bound x ty c n :
  floorOrZero x = Some n → bind ty n = Some c →
  ∃ z, n = Js.ofZ z ∧ decimalText z = Some c.
Proof.
  intros Hf Hb. apply bind_Some in Hb as (m & e & -> & Hd & _).
  unfold floorOrZero in Hf.
  destruct (ToNumber _) as [[|?|m0 e0]|]; simpl in Hf; try done.
  injection Hf as <- <-. rewrite floorZ_0_r in Hd. by exists (Js.floorZ m0 e0).
Qed.

Lemma floorOrZero_falsy x : Js.truthy x = false → floorOrZero x = Some (Js.ofZ 0).
Proof. intros H. unfold floorOrZero, Js.or. by rewrite H. Qed.

Lemma floorOrZero_number m e :
  floorOrZero (Js.Num (Js.Fin m e)) = Some (Js.ofZ (Js.floorZ m e)).
Proof.
  unfold floorOrZero, Js.or. simpl. destruct (Z.eqb_spec m 0) as [->|]; simpl; [|done].
  unfold Js.floorZ. by rewrite !Z.shiftl_0_l.
Qed.

Lemma bind_rejects ty n :
  n = Js.NaN
  ∨ (∃ negative, n = Js.Infinity negative)
  ∨ (∃ z, n = Js.ofZ z ∧ - 2 ^ 53 <= z <= 2 ^ 53 ∧ inRange ty z = false) →
  bind ty n = None.
Proof.
  intros [->|[[negative ->]|(z & -> & Hsafe & Hout)]]; [done|done|].
  unfold bind, Js.ofZ. destruct (isInteger z 0); [|done].
  rewrite floorZ_0_r, (decimalText_safe z Hsafe). simpl. by rewrite Hout.
Qed.

(** C2, as the code has it. Take a submission for an identity with no
    record. If it is answered 200 it creates the record, and each numeric
    column holds the integer read back from the text of
    [Math.floor(field || 0)], with no clamp at zero: a falsy field (missing,
    [null], [false], [0], NaN or the empty string) is stored as 0, and a
    number whose floor is at most [2^53] in magnitude is stored as that
    floor, negative when the number is negative. A field is never turned
    into 0 for being unusable: when its conversion throws, or gives NaN or
    an infinity, or gives a floor of at most [2^53] in magnitude outside the
    range of its column, the submission is not answered 200 (it is answered
    500 once past the rate check) and no record is created. *)
Theorem created_record_stores_floor st rq now q tbl username :
  pool st = Some tbl →
  submittedName (body rq) = Some username →
  tbl !! username = None →
  (status (post_leaderboard st rq now q).1 = 200 →
   ∃ v,
     stored (post_leaderboard st rq now q).2 username =
       Some {| stats := v; updated_at := NOW q |}
     ∧ ∀ f,
         (∃ z, floorOrZero (bodyField f (body rq)) = Some (Js.ofZ z)
             ∧ decimalText z = Some (column f v))
         ∧ (Js.truthy (bodyField f (body rq)) = false → column f v = 0)
         ∧ (∀ m e, bodyField f (body rq) = Js.Num (Js.Fin m e) →
              - 2 ^ 53 <= Js.floorZ m e <= 2 ^ 53 →
              column f v = Js.floorZ m e))
  ∧ (∀ f,
       floorOrZero (bodyField f (body rq)) = None
       ∨ floorOrZero (bodyField f (body rq)) = Some Js.NaN
       ∨ (∃ negative, floorOrZero (bodyField f (body rq)) = Some (Js.Infinity negative))
       ∨ (∃ z, floorOrZero (bodyField f (body rq)) = Some (Js.ofZ z)
             ∧ - 2 ^ 53 <= z <= 2 ^ 53 ∧ inRange (columnType f) z = false) →
       status (post_leaderboard st rq now q).1 ≠ 200
       ∧ stored (post_leaderboard st rq now q).2 username = None
       ∧ (10000 <= now - lastSubmit (submitTimes st) (originOf rq) →
          status (post_leaderboard st rq now q).1 = 500)).
Proof.
  intros Hp Hn Hnone. split.
  - intros Hs.
    destruct (post_accepted _ _ _ _ Hs) as (tbl0 & u & v & Hp0 & _ & Hn0 & Hv & _ & E).
    simplify_eq. exists v. split.
    { rewrite E. unfold stored. simpl. by rewrite upsert_lookup, Hnone. }
    intros f.
    destruct (submittedStats_column _ _ f Hv) as (n & Hf & Hb).
    destruct (floorOrZero_bound _ _ _ _ Hf Hb) as (z & -> & Hd).
    split; [by exists z|]. split.
    + intros Hfalsy. rewrite (floorOrZero_falsy _ Hfalsy) in Hf. injection Hf as <-.
      rewrite decimalText_safe in Hd by lia. by injection Hd.
    + intros m e Hx Hsafe. rewrite Hx, floorOrZero_number in Hf. injection Hf as <-.
      rewrite decimalText_safe in Hd by done. by injection Hd.
  - intros f Hbad.
    assert (status (post_leaderboard st rq now q).1 ≠ 200) as Hs.
    { intros Hs.
      destruct (post_accepted _ _ _ _ Hs) as (_ & _ & v & _ & _ & _ & Hv & _).
      destruct (submittedStats_column _ _ f Hv) as (n & Hf & Hb).
      rewrite Hf in Hbad. destruct Hbad as [Hbad|Hbad]; [done|].
      rewrite bind_rejects in Hb; [done|].
      destruct Hbad as [[= ->]|[[negative [= ->]]|(z & [= ->] & ?)]]; eauto 6. }
    split; [done|]. split.
    + unfold stored. by rewrite (post_not_accepted _ _ _ _ Hs), Hp.
    + intros Hc. rewrite (post_well_formed _ _ _ q _ _ Hp Hc Hn) in Hs |- *.
      by destruct (submitQuery tbl username (body rq) q).
Qed.

(** ** The order of the checks and the rate limit *)

Lemma lastSubmit_default times ip : lastSubmit times ip = default 0 (times !! ip).
Proof.
  unfold lastSubmit. destruct (times !! ip) as [t|]; simpl; [|done].
  by destruct (Z.eqb_spec t 0).
Qed.

Lemma post_passed_rate_check st rq now q tbl :
  pool st = Some tbl →
  10000 <= now - lastSubmit (submitTimes st) (originOf rq) →
  status (post_leaderboard st rq now q).1 ≠ 429
  ∧ submitTimes (post_leaderboard st rq now q).2 = <[originOf rq := now]> (submitTimes st)
  ∧ is_Some (pool (post_leaderboard st rq now q).2).
Proof.
  intros Hp Hc. destruct (submittedName (body rq)) as [u|] eqn:Hn.
  - rewrite (post_well_formed _ _ _ q _ _ Hp Hc Hn).
    destruct (submitQuery tbl u (body rq) q); simpl; [by eauto|].
    rewrite Hp. by eauto.
  - destruct (post_malformed _ _ _ q _ Hp Hc Hn) as [-> ->]. simpl.
    rewrite Hp. by eauto.
Qed.

Lemma post_status_429 st rq now q tbl :
  pool st = Some tbl →
  status (post_leaderboard st rq now q).1 = 429
  ↔ now - lastSubmit (submitTimes st) (originOf rq) < 10000.
Proof.
  intros Hp. split.
  - intros Hs.
    destruct (Z.lt_ge_cases (now - lastSubmit (submitTimes st) (originOf rq)) 10000)
      as [Hc|Hc]; [done|].
    by destruct (post_passed_rate_check _ _ _ q _ Hp Hc) as [? _].
  - intros Hc. by rewrite (post_cooling_down _ _ _ _ _ Hp Hc).
Qed.

(** C3. The status of every answer of [POST /api/leaderboard] is the one
    the four checks give in their order: 503 without a store, else 429
    within the cooldown, else 400 for a malformed username, else 500 when
    the merge throws and 200 when it does not. Without a store the whole
    answer and state are fixed, whatever the rate-limit map holds; within
    the cooldown they are fixed whatever the body holds; past both the
    origin is stamped, and a malformed username leaves the table alone. *)
Theorem checks_run_in_order st rq now q :
  let coolingDown := now - lastSubmit (submitTimes st) (originOf rq) <? 10000 in
  let storeMissing := bool_decide (pool st = None) in
  let malformed := bool_decide (submittedName (body rq) = None) in
  status (post_leaderboard st rq now q).1 =
    Spec.statusInOrder storeMissing coolingDown malformed (mergeFails st rq q)
  ∧ (storeMissing = true →
       post_leaderboard st rq now q = (res_status_json 503 (Error NoDatabase), st))
  ∧ (storeMissing = false → coolingDown = true →
       post_leaderboard st rq now q = (res_status_json 429 (Error TooFast), st))
  ∧ (storeMissing = false → coolingDown = false →
       submitTimes (post_leaderboard st rq now q).2
         = <[originOf rq := now]> (submitTimes st)
       ∧ (malformed = true → pool (post_leaderboard st rq now q).2 = pool st)).
Proof.
  intros coolingDown storeMissing malformed.
  subst coolingDown storeMissing malformed. unfold Spec.statusInOrder, mergeFails.
  destruct (pool st) as [tbl|] eqn:Hp.
  2: { rewrite bool_decide_eq_true_2 by done.
       rewrite (post_without_pool _ _ _ _ Hp). by repeat split. }
  rewrite bool_decide_eq_false_2 by done.
  destruct (Z.ltb_spec (now - lastSubmit (submitTimes st) (originOf rq)) 10000) as [Hc|Hc].
  { rewrite (post_cooling_down _ _ _ _ _ Hp Hc). by repeat split. }
  destruct (post_passed_rate_check _ _ _ q _ Hp Hc) as (_ & Ht & _).
  destruct (submittedName (body rq)) as [u|] eqn:Hn.
  - rewrite bool_decide_eq_false_2 by done.
    rewrite (post_well_formed _ _ _ q _ _ Hp Hc Hn) in Ht |- *.
    destruct (submitQuery tbl u (body rq) q) as [tbl'|] eqn:Hq.
    + rewrite bool_decide_eq_false_2 by done. by repeat split.
    + rewrite bool_decide_eq_true_2 by done. by repeat split.
  - rewrite bool_decide_eq_true_2 by done.
    destruct (post_malformed _ _ _ q _ Hp Hc Hn) as [Hs E].
    rewrite Hs. repeat split; try done. intros _. by rewrite E.
Qed.

(** C4. With a store, and for every clock reading from 10000 ms on (the
    clock is [Date.now()], milliseconds since 1970), the rate limiter is the
    one the specification words: a submission is rejected with 429 exactly
    when an entry exists for its origin and [now] is less than 10000 ms past
    it; a rejection changes nothing, any other answer records [now] for the
    origin. After a submission that was not rate limited, the next one from
    the same origin is answered 429 exactly when it comes less than 10000 ms
    later, so one at or after 10000 ms gets past. (For every reading,
    earlier ones too, the test is [now - last < 10000] with [last] read as 0
    where the origin has no entry.) *)
Theorem cooldown_counts_from_last_or_epoch st rq now q tbl :
  pool st = Some tbl →
  let key := originOf rq in
  let r := post_leaderboard st rq now q in
  (status r.1 = 429 ↔ now - default 0 (submitTimes st !! key) < 10000)
  ∧ (status r.1 = 429 → r.2 = st)
  ∧ (status r.1 ≠ 429 → submitTimes r.2 = <[key := now]> (submitTimes st))
  ∧ (10000 <= now →
       (status r.1 = 429 ↔ ∃ t, submitTimes st !! key = Some t ∧ now - t < 10000)
       ∧ Spec.tryAccept (submitTimes st) key now
           = (negb (status r.1 =? 429), submitTimes r.2))
  ∧ (status r.1 ≠ 429 →
       ∀ rq2 now2 q2, originOf rq2 = key →
         (status (post_leaderboard r.2 rq2 now2 q2).1 = 429 ↔ now2 - now < 10000)).
Proof.
  intros Hp key r. subst key r.
  pose proof (post_status_429 st rq now q tbl Hp) as H429.
  rewrite lastSubmit_default in H429.
  split; [done|]. split; [|split; [|split]].
  - intros Hs. apply H429 in Hs. rewrite <- lastSubmit_default in Hs.
    by rewrite (post_cooling_down _ _ _ _ _ Hp Hs).
  - intros Hs.
    destruct (Z.lt_ge_cases (now - default 0 (submitTimes st !! originOf rq)) 10000)
      as [Hc|Hc]; [by apply H429 in Hc|].
    rewrite <- lastSubmit_default in Hc.
    by destruct (post_passed_rate_check _ _ _ q _ Hp Hc) as (_ & ? & _).
  - intros Hnow. split.
    + rewrite H429. destruct (submitTimes st !! originOf rq) as [t|]; simpl.
      * split; [by eauto|]. by intros (t' & [= <-] & ?).
      * split; [lia|]. by intros (t' & ? & _).
    + unfold Spec.tryAccept.
      destruct (Z.lt_ge_cases (now - default 0 (submitTimes st !! originOf rq)) 10000)
        as [Hc|Hc].
      * pose proof Hc as Hs. apply H429 in Hs. rewrite Hs. simpl.
        rewrite <- lastSubmit_default in Hc.
        rewrite (post_cooling_down _ _ _ _ _ Hp Hc). simpl.
        rewrite lastSubmit_default in Hc.
        destruct (submitTimes st !! originOf rq) as [t|]; simpl in *; [|lia].
        by destruct (Z.ltb_spec (now - t) 10000); [|lia].
      * assert (status (post_leaderboard st rq now q).1 ≠ 429) as Hs
          by (intros Hs; apply H429 in Hs; lia).
        apply Z.eqb_neq in Hs. rewrite Hs. simpl.
        rewrite <- lastSubmit_default in Hc.
        destruct (post_passed_rate_check _ _ _ q _ Hp Hc) as (_ & -> & _).
        rewrite lastSubmit_default in Hc.
        destruct (submitTimes st !! originOf rq) as [t|]; simpl in *; [|done].
        by destruct (Z.ltb_spec (now - t) 10000); [lia|].
  - intros Hs rq2 now2 q2 Hkey.
    destruct (Z.lt_ge_cases (now - default 0 (submitTimes st !! originOf rq)) 10000)
      as [Hc|Hc]; [by apply H429 in Hc|].
    rewrite <- lastSubmit_default in Hc.
    destruct (post_passed_rate_check _ _ _ q _ Hp Hc) as (_ & Ht & tbl' & Hp').
    rewrite (post_status_429 _ rq2 now2 q2 tbl' Hp'), lastSubmit_default, Ht, Hkey.
    by rewrite lookup_insert_eq.
Qed.

(** C10. With a store and past the rate check, a submission with a
    malformed username is answered 400 and still records [now] for its
    origin, which changes the rate-limit map; whatever comes next from the
    same origin less than 10000 ms later, well formed or not, is answered
    429. *)
Theorem rejected_username_starts_cooldown st rq now q tbl rq2 now2 q2 :
  pool st = Some tbl →
  10000 <= now - lastSubmit (submitTimes st) (originOf rq) →
  submittedName (body rq) = None →
  originOf rq2 = originOf rq →
  now2 - now < 10000 →
  status (post_leaderboard st rq now q).1 = 400
  ∧ submitTimes (post_leaderboard st rq now q).2 !! originOf rq = Some now
  ∧ submitTimes (post_leaderboard st rq now q).2 ≠ submitTimes st
  ∧ status (post_leaderboard (post_leaderboard st rq now q).2 rq2 now2 q2).1 = 429.
Proof.
  intros Hp Hc Hn Hkey Hsoon.
  destruct (post_malformed _ _ _ q _ Hp Hc Hn) as [Hs E].
  split; [done|]. rewrite E. simpl. split; [apply lookup_insert_eq|]. split.
  - intros Heq. rewrite lastSubmit_default, <- Heq, lookup_insert_eq in Hc.
    simpl in Hc. lia.
  - apply (post_status_429 _ _ _ _ tbl); [done|].
    rewrite lastSubmit_default, Hkey. simpl. by rewrite lookup_insert_eq.
Qed.

End Server.

(** ** Presence *)

Lemma countAfter_size cutoff (players : gmap string Z) :
  countAfter cutoff players
    = size (filter (fun kv : string * Z => cutoff < kv.2) players).
Proof.
  unfold countAfter.
  induction players as [|u t players Hnone IH] using map_ind.
  - by rewrite map_fold_empty, map_filter_empty, map_size_empty.
  - rewrite map_fold_insert_L; [|intros; by repeat case_match|done].
    rewrite IH. destruct (Z.ltb_spec cutoff t) as [Hlt|Hge].
    + rewrite map_filter_insert_True by done.
      rewrite map_size_insert_None; [done|].
      by rewrite map_lookup_filter_None_2; [|left].
    + rewrite map_filter_insert_False by (simpl; lia).
      by rewrite delete_id.
Qed.

Lemma online_window now (players : gmap string Z) :
  filter (fun kv : string * Z => now - 60000 < kv.2) players
    = filter (fun kv : string * Z => now - kv.2 < 60000) players.
Proof. apply map_filter_ext. intros u t _. simpl. lia. Qed.

(** C5, as the code has it. [GET /api/online] and [POST /api/ping] answer
    with the number of presence entries whose timestamp [t] has
    [now - t < 60000], the bound excluded: an entry that is exactly 60000 ms
    old counts for nothing, the answer is the same with it removed. The
    count of a ping is taken after the ping has been recorded. *)
Theorem online_count_excludes_boundary st now username t_set :
  get_online st now
    = res_json (Online (size (filter (fun kv : string * Z => now - kv.2 < 60000)
                                     (onlinePlayers st))))
  ∧ (post_ping st username t_set now).1
      = res_json (Online (size (filter (fun kv : string * Z => now - kv.2 < 60000)
                                       (onlinePlayers (post_ping st username t_set now).2))))
  ∧ ∀ u, onlinePlayers st !! u = Some (now - 60000) →
      get_online st now
        = get_online {| pool := pool st; submitTimes := submitTimes st;
                        onlinePlayers := delete u (onlinePlayers st) |} now.
Proof.
  unfold get_online, post_ping. simpl.
  rewrite !countAfter_size, !online_window. split; [done|]. split; [done|].
  intros u Hu. rewrite countAfter_size, online_window.
  rewrite map_filter_delete, delete_id; [done|].
  apply map_lookup_filter_None_2. right. intros t Ht. simplify_eq. simpl. lia.
Qed.

(** C9, as the code has it. [POST /api/ping] records [t_set] under the
    trimmed, lower-cased username whenever the username it was sent is a
    string that is not empty, also when trimming leaves nothing of it (the
    key is then the empty string); for any other username it changes
    nothing. It never touches the table or the rate-limit map, and it always
    answers 200 with the count over the map as the ping left it. *)
Theorem ping_records_every_nonempty_string st username t_set t_count :
  (∀ s, username = Js.Str s → s ≠ EmptyString →
     onlinePlayers (post_ping st username t_set t_count).2
       = <[JsString.toLowerCase (JsString.trim s) := t_set]> (onlinePlayers st))
  ∧ ((∀ s, username = Js.Str s → s = EmptyString) →
       (post_ping st username t_set t_count).2 = st)
  ∧ pool (post_ping st username t_set t_count).2 = pool st
  ∧ submitTimes (post_ping st username t_set t_count).2 = submitTimes st
  ∧ (post_ping st username t_set t_count).1
      = res_json (Online (countAfter (t_count - 60000)
                            (onlinePlayers (post_ping st username t_set t_count).2))).
Proof.
  unfold post_ping. simpl. split; [|split; [|split; [|split]]].
  - intros s -> Hs. by destruct s.
  - intros Hempty. destruct username as [| |b|n|s|o]; simpl; try done.
    + by destruct b.
    + by repeat case_match.
    + by rewrite (Hempty s eq_refl).
  - by repeat case_match.
  - by repeat case_match.
  - done.
Qed.

(** ** Rank and the top of the leaderboard *)

Lemma length_filter_map_to_list {A} (P : string * A → Prop) `{!∀ x, Decision (P x)}
    (m : gmap string A) :
  length (filter P (map_to_list m)) = size (filter P m).
Proof.
  induction m as [|u x m Hnone IH] using map_ind.
  - by rewrite map_to_list_empty, map_filter_empty, map_size_empty.
  - rewrite map_to_list_insert by done. rewrite filter_cons.
    destruct (decide (P (u, x))) as [HP|HP].
    + rewrite map_filter_insert_True by done.
      rewrite map_size_insert_None by (by rewrite map_lookup_filter_None_2; [|left]).
      simpl. by rewrite IH.
    + rewrite map_filter_insert_False by done. by rewrite delete_id.
Qed.

Lemma name_is_lower_case s : JsString.every JsString.isNameChar s = true →
  JsString.toLowerCase s = s.
Proof.
  induction s as [|c s IH]; simpl; [done|].
  intros [Hc Hs]%andb_prop. rewrite (IH Hs). f_equal.
  unfold JsString.lowerChar, JsString.isNameChar in *.
  assert (0 <= JsString.code c) by (unfold JsString.code; lia).
  destruct (_ || _) eqn:Hup in |- *; [|done]. lia.
Qed.

(** C6. For every identity the table holds, [GET /api/leaderboard/:username]
    answers with its record and a rank that is one more than the number of
    identities whose [best_score] is strictly greater. (The handler looks up
    the lower-cased parameter, which for a name that passed validation is
    the name itself.) *)
Theorem rank_is_one_plus_strictly_greater st tbl name r q :
  pool st = Some tbl →
  rejects q = false →
  tbl !! JsString.toLowerCase name = Some r →
  get_player st name q
    = res_json (Player (Some
        (JsString.toLowerCase name, stats r,
         (size (dom (filter (fun kv : string * Row =>
                               (best_score (stats r) < best_score (stats kv.2))%Z) tbl))
          + 1)%nat)))
  ∧ (JsString.testName name = true → JsString.toLowerCase name = name).
Proof.
  intros Hp Hq Hr. split.
  - unfold get_player, selectPlayer, rankAbove. rewrite Hp, Hq, Hr. simpl.
    by rewrite length_filter_map_to_list, size_dom.
  - intros [_ H]%andb_prop. by apply name_is_lower_case.
Qed.

Global Instance scoreDesc_total : Total scoreDesc.
Proof. intros a b. unfold scoreDesc. lia. Qed.

Global Instance scoreDesc_trans : Transitive scoreDesc.
Proof. intros a b c. unfold scoreDesc. lia. Qed.

Lemma effectiveLimit_bounds limit : 1 <= effectiveLimit limit <= 100.
Proof. unfold effectiveLimit. lia. Qed.

(** C7, as the code has it. The effective limit always lies in [1, 100]. It
    is the parsed limit clamped to that range when the parameter parses to
    an integer other than 0, and 50 when the parameter is missing, does not
    parse, or parses to 0. With a store, [GET /api/leaderboard] answers with
    that many rows, or all of them when the table has fewer: every row is a
    record of the table, each row's [best_score] is at least that of every
    row after it, and no record left out has a greater [best_score] than a
    row returned. *)
Theorem leaderboard_limit_and_order st limit q tbl :
  pool st = Some tbl →
  rejects q = false →
  1 <= effectiveLimit limit <= 100
  ∧ effectiveLimit limit
      = match JsParse.parseIntQuery limit with
        | Some n => if n =? 0 then 50 else Spec.clamp n
        | None => 50
        end
  ∧ (limit = None → effectiveLimit limit = 50)
  ∧ ∃ rows,
      get_leaderboard st limit q = res_json (Rows rows)
      ∧ length rows = Nat.min (Z.to_nat (effectiveLimit limit)) (size tbl)
      ∧ StronglySorted (fun a b : string * Stats => best_score b.2 <= best_score a.2) rows
      ∧ (∀ row, row ∈ rows → ∃ r, tbl !! row.1 = Some r ∧ row.2 = stats r)
      ∧ (∀ u r, tbl !! u = Some r → (u, stats r) ∉ rows →
           ∀ row, row ∈ rows → best_score (stats r) <= best_score row.2).
Proof.
  intros Hp Hq. split; [apply effectiveLimit_bounds|]. split; [|split].
  - unfold effectiveLimit, Spec.clamp.
    destruct (JsParse.parseIntQuery limit) as [n|]; [|done].
    by destruct (n =? 0).
  - by intros ->.
  - unfold get_leaderboard. rewrite Hp, Hq. eexists. split; [done|].
    unfold selectTop.
    set (n := Z.to_nat (effectiveLimit limit)).
    set (sorted := merge_sort scoreDesc (map_to_list tbl)).
    assert (sorted ≡ₚ map_to_list tbl) as Hperm by apply merge_sort_Permutation.
    assert (StronglySorted scoreDesc (take n sorted ++ drop n sorted)) as Hsorted.
    { rewrite take_drop. apply StronglySorted_merge_sort; apply _. }
    split; [|split; [|split]].
    + by rewrite length_fmap, length_take, Hperm, length_map_to_list.
    + apply (StronglySorted_fmap _ scoreDesc); [by intros [??] [??]|].
      by apply StronglySorted_app_1_l in Hsorted.
    + intros row ([u r] & -> & Hin)%list_elem_of_fmap.
      apply subseteq_take in Hin. rewrite Hperm in Hin.
      apply elem_of_map_to_list in Hin. by exists r.
    + intros u r Hr Hout row ([u' r'] & -> & Hin)%list_elem_of_fmap. simpl.
      assert ((u, r) ∈ take n sorted ++ drop n sorted) as Hur.
      { rewrite take_drop, Hperm. by apply elem_of_map_to_list. }
      apply elem_of_app in Hur as [Hur|Hur].
      * destruct Hout. by apply (list_elem_of_fmap_2' _ _ (u, r)).
      * apply (StronglySorted_app_1_elem_of _ _ _ _ _ Hsorted Hin Hur).
Qed.

(** ** The theorems at sample inputs *)

Lemma plainText_safe z : - 2 ^ 53 <= z <= 2 ^ 53 → plainText z = Some z.
Proof.
  intros Hz. unfold plainText.
  change (2 ^ 53) with 9007199254740992 in Hz.
  change (10 ^ 21) with 1000000000000000000000.
  by destruct (Z.ltb_spec (Z.abs z) 1000000000000000000000); [|lia].
Qed.

Lemma merge_keeps_running_maximum_witness :
  stored Samples.holding "bob" = Some Samples.bobRow
  ∧ ∃ r',
      stored (serve notNumeric plainText Samples.holding Samples.twoSubmissions) "bob"
        = Some r'
      ∧ Spec.is_maximum (column BestScore (stats r')) [10; 7; 30].
Proof.
  split; [reflexivity|].
  destruct (merge_keeps_running_maximum notNumeric plainText
              Samples.holding Samples.twoSubmissions "bob" Samples.bobRow BestScore
              eq_refl) as (r' & Hr' & Hmax & _).
  exists r'. split; [exact Hr'|exact Hmax].
Defined.

Lemma resubmission_keeps_columns_witness :
  let rq := Samples.from "10.0.0.1" (Samples.scores "Alice_01" (Samples.number 5)) in
  let st1 := (post_leaderboard notNumeric plainText Samples.fresh rq 20000
                (Samples.succeeds 1)).2 in
  let st2 := (post_leaderboard notNumeric plainText st1 rq 40000 (Samples.succeeds 2)).2 in
  status (post_leaderboard notNumeric plainText Samples.fresh rq 20000
            (Samples.succeeds 1)).1 = 200
  ∧ status (post_leaderboard notNumeric plainText st1 rq 40000 (Samples.succeeds 2)).1 = 200
  ∧ ∃ username tbl1 r1,
      submittedName (body rq) = Some username
      ∧ pool st1 = Some tbl1
      ∧ tbl1 !! username = Some r1
      ∧ pool st2 = Some (<[username := {| stats := stats r1; updated_at := 2 |}]> tbl1).
Proof.
  intros rq st1 st2. split; [reflexivity|]. split; [reflexivity|].
  exact (resubmission_keeps_columns notNumeric plainText Samples.fresh rq 20000
           (Samples.succeeds 1) rq 40000 (Samples.succeeds 2) eq_refl eq_refl eq_refl).
Defined.

Lemma created_record_stores_floor_witness :
  let rq := Samples.from "10.0.0.1"
              (Samples.scores "Carol" (Js.Num (Js.Fin (-7) (-1)))) in
  let r := post_leaderboard notNumeric plainText Samples.fresh rq 20000
             (Samples.succeeds 1) in
  pool Samples.fresh = Some ∅
  ∧ submittedName (body rq) = Some "carol"%string
  ∧ (∅ : gmap string Row) !! "carol"%string = None
  ∧ status r.1 = 200
  ∧ ∃ v,
      stored r.2 "carol" = Some {| stats := v; updated_at := 1 |}
      ∧ ∀ f,
          (∃ z, floorOrZero notNumeric (bodyField f (body rq)) = Some (Js.ofZ z)
              ∧ plainText z = Some (column f v))
          ∧ (Js.truthy (bodyField f (body rq)) = false → column f v = 0)
          ∧ (∀ m e, bodyField f (body rq) = Js.Num (Js.Fin m e) →
               - 2 ^ 53 <= Js.floorZ m e <= 2 ^ 53 →
               column f v = Js.floorZ m e).
Proof.
  intros rq r. split; [reflexivity|]. split; [reflexivity|].
  split; [reflexivity|]. split; [reflexivity|].
  exact (proj1 (created_record_stores_floor notNumeric plainText plainText_safe
                  Samples.fresh rq 20000 (Samples.succeeds 1) ∅ "carol"
                  eq_refl eq_refl eq_refl) eq_refl).
Defined.

Lemma negative_or_unusable_field_is_not_stored_as_zero :
  let negative := Samples.from "10.0.0.1" (Samples.scores "bob" (Samples.number (-5))) in
  let unusable := Samples.from "10.0.0.1" (Samples.scores "bob" (Js.Str "abc")) in
  let r1 := post_leaderboard notNumeric plainText Samples.fresh negative 20000
              (Samples.succeeds 1) in
  let r2 := post_leaderboard notNumeric plainText Samples.fresh unusable 20000
              (Samples.succeeds 1) in
  Samples.fresh.(pool) = Some ∅
  ∧ status r1.1 = 200
  ∧ stats <$> stored r1.2 "bob" = Some (mkStats (-5) 0 0 0 0)
  ∧ best_score <$> (stats <$> stored r1.2 "bob") ≠ Some 0
  ∧ notNumeric "abc" = Js.NaN
  ∧ status r2.1 = 500
  ∧ stored r2.2 "bob" = None
  ∧ best_score <$> (stats <$> stored r2.2 "bob") ≠ Some 0.
Proof.
  intros negative unusable r1 r2. repeat split; try reflexivity.
  - vm_compute. discriminate.
  - vm_compute. discriminate.
Qed.

Lemma checks_run_in_order_witness :
  let rq := Samples.from "10.0.0.1" (Samples.scores "ab!" (Samples.number 5)) in
  let noStore := {| pool := None; submitTimes := ∅; onlinePlayers := ∅ |} in
  status (post_leaderboard notNumeric plainText noStore rq 20000 (Samples.succeeds 1)).1
    = 503
  ∧ status (post_leaderboard notNumeric plainText Samples.fresh rq 5000
              (Samples.succeeds 1)).1 = 429
  ∧ status (post_leaderboard notNumeric plainText Samples.fresh rq 20000
              (Samples.succeeds 1)).1 = 400.
Proof.
  intros rq noStore. split; [|split].
  - exact (proj1 (checks_run_in_order notNumeric plainText noStore rq 20000
                    (Samples.succeeds 1))).
  - exact (proj1 (checks_run_in_order notNumeric plainText Samples.fresh rq 5000
                    (Samples.succeeds 1))).
  - exact (proj1 (checks_run_in_order notNumeric plainText Samples.fresh rq 20000
                    (Samples.succeeds 1))).
Defined.

Lemma cooldown_counts_from_last_or_epoch_witness :
  let rq := Samples.from "10.0.0.1" (Samples.scores "bob" (Samples.number 5)) in
  let r := post_leaderboard notNumeric plainText Samples.fresh rq 20000
             (Samples.succeeds 1) in
  pool Samples.fresh = Some ∅
  ∧ 10000 <= 20000
  ∧ status r.1 ≠ 429
  ∧ (status r.1 = 429
     ↔ ∃ t, submitTimes Samples.fresh !! originOf rq = Some t ∧ 20000 - t < 10000)
  ∧ Spec.tryAccept (submitTimes Samples.fresh) (originOf rq) 20000
      = (negb (status r.1 =? 429), submitTimes r.2)
  ∧ (status (post_leaderboard notNumeric plainText r.2 rq 29999 (Samples.succeeds 2)).1
       = 429 ↔ 29999 - 20000 < 10000)
  ∧ (status (post_leaderboard notNumeric plainText r.2 rq 30000 (Samples.succeeds 2)).1
       = 429 ↔ 30000 - 20000 < 10000).
Proof.
  intros rq r.
  assert (status r.1 ≠ 429) as Hs by (vm_compute; discriminate).
  assert (10000 <= 20000) as Hnow by (vm_compute; discriminate).
  split; [reflexivity|]. split; [exact Hnow|]. split; [exact Hs|].
  destruct (cooldown_counts_from_last_or_epoch notNumeric plainText
              Samples.fresh rq 20000 (Samples.succeeds 1) ∅ eq_refl)
    as (_ & _ & _ & Hspec & Hnext).
  destruct (Hspec Hnow) as [Hiff Htry].
  split; [exact Hiff|]. split; [exact Htry|].
  split; exact (Hnext Hs rq _ (Samples.succeeds 2) eq_refl).
Defined.

Lemma rejected_username_starts_cooldown_witness :
  let bad := Samples.from "10.0.0.1" (Samples.scores "ab!" (Samples.number 5)) in
  let good := Samples.from "10.0.0.1" (Samples.scores "abc" (Samples.number 5)) in
  let r := post_leaderboard notNumeric plainText Samples.fresh bad 20000
             (Samples.succeeds 1) in
  pool Samples.fresh = Some ∅
  ∧ 10000 <= 20000 - lastSubmit (submitTimes Samples.fresh) (originOf bad)
  ∧ submittedName (body bad) = None
  ∧ submittedName (body good) = Some "abc"%string
  ∧ originOf good = originOf bad
  ∧ 29999 - 20000 < 10000
  ∧ status r.1 = 400
  ∧ submitTimes r.2 !! originOf bad = Some 20000
  ∧ submitTimes r.2 ≠ submitTimes Samples.fresh
  ∧ status (post_leaderboard notNumeric plainText r.2 good 29999 (Samples.succeeds 2)).1
      = 429.
Proof.
  intros bad good r.
  assert (10000 <= 20000 - lastSubmit (submitTimes Samples.fresh) (originOf bad)) as Hc
    by (vm_compute; discriminate).
  assert (29999 - 20000 < 10000) as Hsoon by reflexivity.
  split; [reflexivity|]. split; [exact Hc|]. split; [reflexivity|].
  split; [reflexivity|]. split; [reflexivity|]. split; [exact Hsoon|].
  exact (rejected_username_starts_cooldown notNumeric plainText Samples.fresh bad 20000
           (Samples.succeeds 1) ∅ good 29999 (Samples.succeeds 2)
           eq_refl Hc eq_refl eq_refl Hsoon).
Defined.

Lemma entry_exactly_60s_old_is_not_counted :
  let st := {| pool := None; submitTimes := ∅;
               onlinePlayers := {[ "bob"%string := 1700000000000 ]} |} in
  let now := 1700000060000 in
  now - 1700000000000 <= 60000
  ∧ Spec.countOnline (onlinePlayers st) now = 1%nat
  ∧ get_online st now = res_json (Online 0)
  ∧ get_online st now ≠ res_json (Online (Spec.countOnline (onlinePlayers st) now)).
Proof.
  intros st now. split; [by vm_compute|]. split; [reflexivity|]. split; [reflexivity|].
  vm_compute. discriminate.
Qed.

Lemma whitespace_username_is_recorded :
  let r := post_ping Samples.fresh (Js.Str "   ") 1700000000000 1700000000000 in
  JsString.trim "   " = EmptyString
  ∧ onlinePlayers Samples.fresh !! EmptyString = None
  ∧ onlinePlayers r.2 !! EmptyString = Some 1700000000000
  ∧ r.1 = res_json (Online 1).
Proof. intros r. repeat split; reflexivity. Qed.

Lemma rank_is_one_plus_strictly_greater_witness :
  pool Samples.fourPlayers
    = Some (<["ann"%string := Samples.player 100]>
           (<["ben"%string := Samples.player 80]>
           (<["cat"%string := Samples.player 80]>
           (<["dan"%string := Samples.player 50]> ∅))))
  ∧ get_player Samples.fourPlayers "ben" (Samples.succeeds 1)
      = res_json (Player (Some ("ben"%string, mkStats 80 0 0 0 0, 2%nat)))
  ∧ get_player Samples.fourPlayers "Cat" (Samples.succeeds 1)
      = res_json (Player (Some ("cat"%string, mkStats 80 0 0 0 0, 2%nat))).
Proof.
  split; [reflexivity|]. split.
  - exact (proj1 (rank_is_one_plus_strictly_greater Samples.fourPlayers _ "ben"
                    (Samples.player 80) (Samples.succeeds 1) eq_refl eq_refl eq_refl)).
  - exact (proj1 (rank_is_one_plus_strictly_greater Samples.fourPlayers _ "Cat"
                    (Samples.player 80) (Samples.succeeds 1) eq_refl eq_refl eq_refl)).
Defined.

Lemma leaderboard_limit_and_order_witness :
  pool Samples.fourPlayers ≠ None
  ∧ effectiveLimit (Some "2"%string) = 2
  ∧ ∃ rows,
      get_leaderboard Samples.fourPlayers (Some "2"%string) (Samples.succeeds 1)
        = res_json (Rows rows)
      ∧ length rows = 2%nat
      ∧ StronglySorted (fun a b : string * Stats => best_score b.2 <= best_score a.2) rows.
Proof.
  split; [discriminate|]. split; [reflexivity|].
  destruct (leaderboard_limit_and_order Samples.fourPlayers (Some "2"%string)
              (Samples.succeeds 1) _ eq_refl eq_refl)
    as (_ & _ & _ & rows & Hrows & Hlen & Hsorted & _).
  exists rows. split; [exact Hrows|]. split; [exact Hlen|exact Hsorted].
Defined.

Lemma limit_zero_gives_fifty :
  JsParse.parseIntQuery (Some "0"%string) = Some 0
  ∧ Spec.clamp 0 = 1
  ∧ effectiveLimit (Some "0"%string) = 50
  ∧ effectiveLimit (Some "0"%string) ≠ 1.
Proof. repeat split; try reflexivity. vm_compute. discriminate. Qed.

(** ** More on presence *)

Lemma count_window now (players : gmap string Z) :
  countAfter (now - 60000) players
    = size (filter (fun kv : string * Z => now - kv.2 < 60000) players).
Proof. by rewrite countAfter_size, online_window. Qed.

Lemma count_insert now u t (players : gmap string Z) :
  countAfter (now - 60000) (<[u := t]> players)
    = (countAfter (now - 60000) (delete u players)
       + (if (now - t <? 60000)%Z then 1 else 0))%nat.
Proof.
  rewrite !count_window, <- (insert_delete_eq players).
  destruct (Z.ltb_spec (now - t) 60000) as [Hin|Hout].
  - rewrite map_filter_insert_True by done.
    rewrite map_size_insert_None; [lia|].
    apply map_lookup_filter_None_2. left. apply lookup_delete_eq.
  - rewrite map_filter_insert_False by (simpl; lia).
    rewrite delete_delete_eq, map_filter_delete, Nat.add_0_r. done.
Qed.

Lemma count_delete_bounds now u (players : gmap string Z) :
  (countAfter (now - 60000) (delete u players) <= countAfter (now - 60000) players
   <= countAfter (now - 60000) (delete u players) + 1)%nat.
Proof.
  destruct (players !! u) as [t|] eqn:Hu.
  - rewrite <- (insert_id players u t Hu) at 2 3. rewrite count_insert.
    destruct (now - t <? 60000); lia.
  - rewrite delete_id by done. lia.
Qed.

(** X1. A ping with a non-empty string replaces whatever entry the
    identity had: for every later reading [now], the count over the map the
    ping leaves is the count over the other identities plus one while
    [now - t_set < 60000] and plus nothing from then on. *)
Theorem ping_counts_for_one_window st s t_set t_count now :
  s ≠ EmptyString →
  let key := JsString.toLowerCase (JsString.trim s) in
  get_online (post_ping st (Js.Str s) t_set t_count).2 now
    = res_json (Online
        (countAfter (now - 60000) (delete key (onlinePlayers st))
         + (if (now - t_set <? 60000)%Z then 1 else 0))%nat).
Proof.
  intros Hs key. unfold get_online, post_ping. destruct s as [|c s]; [done|].
  simpl. by rewrite count_insert.
Qed.

(** X2. Between pings the count only falls: on one and the same state a
    later reading never counts more players than an earlier one, and no
    reading counts more players than the presence map has entries. *)
Theorem online_count_only_falls st now1 now2 :
  now1 <= now2 →
  ∃ n1 n2,
    get_online st now1 = res_json (Online n1)
    ∧ get_online st now2 = res_json (Online n2)
    ∧ (n2 <= n1 <= size (onlinePlayers st))%nat.
Proof.
  intros Hle. unfold get_online. eexists _, _. split; [done|]. split; [done|].
  rewrite !countAfter_size. split.
  - apply map_subseteq_size, map_filter_strong_subseteq_ext.
    intros u t [Hlt Hu]. simpl in *. split; [lia|done].
  - apply map_size_filter.
Qed.

(** X3. Whatever the username, a ping whose two clock readings are less
    than 60000 ms apart reports a count that is at least the count before
    it and at most one more. *)
Theorem ping_raises_count_by_at_most_one st username t_set t_count :
  t_count - t_set < 60000 →
  ∃ before after,
    get_online st t_count = res_json (Online before)
    ∧ (post_ping st username t_set t_count).1 = res_json (Online after)
    ∧ (before <= after <= before + 1)%nat.
Proof.
  intros Hrecent. unfold get_online, post_ping. eexists _, _.
  split; [done|]. split; [done|].
  destruct (Js.truthy username && Js.isString username); [|lia].
  destruct username as [| |b|n|s|o]; simpl; try lia.
  rewrite count_insert.
  destruct (Z.ltb_spec (t_count - t_set) 60000); [|lia].
  pose proof (count_delete_bounds t_count (JsString.toLowerCase (JsString.trim s))
                (onlinePlayers st)). lia.
Qed.

(** ** The clean-up *)

Lemma reapOlder_fold_lookup `{Countable K} cutoff (init m : gmap K Z) k :
  map_fold (fun k t kept => if t <? cutoff then delete k kept else kept) init m !! k
    = match m !! k with
      | Some t => if t <? cutoff then None else init !! k
      | None => init !! k
      end.
Proof.
  revert k. apply (map_fold_weak_ind (fun r m' => ∀ k, r !! k = match m' !! k with
      | Some t => if t <? cutoff then None else init !! k
      | None => init !! k
      end)); [done|].
  intros i x m' r Hi IH k. destruct (decide (i = k)) as [->|Hne].
  - rewrite lookup_insert_eq. destruct (x <? cutoff).
    + apply lookup_delete_eq.
    + by rewrite IH, Hi.
  - rewrite lookup_insert_ne by done. destruct (x <? cutoff).
    + by rewrite lookup_delete_ne, IH.
    + apply IH.
Qed.

Lemma reapOlder_lookup `{Countable K} cutoff (m : gmap K Z) k t :
  reapOlder cutoff m !! k = Some t ↔ m !! k = Some t ∧ cutoff <= t.
Proof.
  unfold reapOlder. rewrite reapOlder_fold_lookup.
  destruct (m !! k) as [t'|]; [|by split; [|intros [? _]]].
  destruct (Z.ltb_spec t' cutoff); split.
  - done.
  - intros [[= ->] ?]. lia.
  - intros [= ->]. by split.
  - by intros [? _].
Qed.

Lemma reapOlder_filter `{Countable K} cutoff (m : gmap K Z) :
  reapOlder cutoff m = filter (fun kv : K * Z => cutoff <= kv.2) m.
Proof.
  apply map_eq. intros k. apply option_eq. intros t.
  rewrite reapOlder_lookup, map_lookup_filter_Some. done.
Qed.

(** X4. The clean-up keeps exactly the recent entries: a rate-limit entry
    survives when it is at most 15000 ms older than the reading [t_rate],
    a presence entry when it is at most 60000 ms older than [t_online];
    every other entry is gone, nothing is added or altered, and the table
    is not touched. *)
Theorem cleanup_keeps_recent_entries st t_rate t_online :
  (∀ ip t, submitTimes (cleanup st t_rate t_online) !! ip = Some t
           ↔ submitTimes st !! ip = Some t ∧ t_rate - t <= 15000)
  ∧ (∀ u t, onlinePlayers (cleanup st t_rate t_online) !! u = Some t
            ↔ onlinePlayers st !! u = Some t ∧ t_online - t <= 60000)
  ∧ pool (cleanup st t_rate t_online) = pool st.
Proof.
  unfold cleanup. simpl. split; [|split; [|done]].
  - intros ip t. rewrite reapOlder_lookup. split; intros [? ?]; split; (done || lia).
  - intros u t. rewrite reapOlder_lookup. split; intros [? ?]; split; (done || lia).
Qed.

(** X5. The clean-up never changes what the presence routes answer
    afterwards: for every reading [now] that is not before the clean-up's
    own reading, [GET /api/online] and [POST /api/ping] answer the same on
    the cleaned state as on the state left alone. *)
Theorem cleanup_keeps_online_count st t_rate t_online now username t_set :
  t_online <= now →
  get_online (cleanup st t_rate t_online) now = get_online st now
  ∧ (post_ping (cleanup st t_rate t_online) username t_set now).1
      = (post_ping st username t_set now).1.
Proof.
  intros Hnow.
  assert (∀ m : gmap string Z,
            countAfter (now - 60000) (reapOlder (t_online - 60000) m)
              = countAfter (now - 60000) m) as Hcount.
  { intros m. rewrite !countAfter_size, reapOlder_filter, map_filter_filter.
    f_equal. apply map_filter_ext. intros u t _. simpl. lia. }
  unfold get_online, post_ping, cleanup. simpl. split; [by rewrite Hcount|].
  destruct (Js.truthy username && Js.isString username); simpl; [|by rewrite Hcount].
  destruct username as [| |b|n|s|o]; simpl; try by rewrite Hcount.
  rewrite !count_insert. do 3 f_equal.
  rewrite !countAfter_size, reapOlder_filter, <- map_filter_delete, map_filter_filter.
  f_equal. apply map_filter_ext. intros u t _. simpl. lia.
Qed.

(** ** Removing a player, and what it does to the others *)

Lemma rankAbove_size (tbl : gmap string Row) score :
  rankAbove tbl score
    = (size (filter (fun kv : string * Row => (score < best_score (stats kv.2))%Z) tbl)
       + 1)%nat.
Proof. unfold rankAbove. by rewrite length_filter_map_to_list. Qed.

(** X6. With a store and a database call that goes through, [DELETE] of a
    name answers 200 and the lower-cased name has no record afterwards:
    reading it gives [null]. Every other record is as before. A name that
    has no record is no error: the answer is still 200 and the state is
    unchanged, so deleting twice is the same as deleting once. *)
Theorem delete_removes_one_record st tbl name q :
  pool st = Some tbl →
  rejects q = false →
  let r := delete_player st name q in
  delete_status r.1 = 200
  ∧ (∀ q', rejects q' = false → get_player r.2 name q' = res_json (Player None))
  ∧ (∀ u, u ≠ JsString.toLowerCase name → stored r.2 u = stored st u)
  ∧ (tbl !! JsString.toLowerCase name = None → r.2 = st)
  ∧ (∀ q', rejects q' = false → delete_player r.2 name q' = r).
Proof.
  intros Hp Hq r. subst r. unfold delete_player. rewrite Hp, Hq. simpl.
  split; [done|]. split; [|split; [|split]].
  - intros q' Hq'. unfold get_player, selectPlayer. simpl.
    by rewrite Hq', lookup_delete_eq.
  - intros u Hu. unfold stored. rewrite Hp. simpl. by apply lookup_delete_ne.
  - intros Hnone. rewrite delete_id by done. destruct st. simpl in *. by subst.
  - intros q' Hq'. rewrite Hq'. by rewrite delete_delete_eq.
Qed.

(** X7. Deleting a player moves up exactly the players below: when the
    records of [gone] and [name] are two different records, the rank read
    for [name] after the deletion is one less than before if [gone] had a
    strictly greater [best_score], and the same as before otherwise. *)
Theorem delete_moves_up_lower_players st tbl gone name rg r q :
  pool st = Some tbl →
  rejects q = false →
  tbl !! JsString.toLowerCase gone = Some rg →
  tbl !! JsString.toLowerCase name = Some r →
  JsString.toLowerCase gone ≠ JsString.toLowerCase name →
  ∃ before after,
    get_player st name q
      = res_json (Player (Some (JsString.toLowerCase name, stats r, before)))
    ∧ get_player (delete_player st gone q).2 name q
        = res_json (Player (Some (JsString.toLowerCase name, stats r, after)))
    ∧ before
        = (after + (if (best_score (stats r) <? best_score (stats rg))%Z
                    then 1 else 0))%nat.
Proof.
  intros Hp Hq Hg Hr Hne. unfold delete_player, get_player, selectPlayer.
  rewrite Hp, Hq. simpl. rewrite Hr, lookup_delete_ne, Hr by done. simpl.
  eexists _, _. split; [done|]. split; [done|].
  rewrite !rankAbove_size, map_filter_delete.
  destruct (Z.ltb_spec (best_score (stats r)) (best_score (stats rg))) as [Hlt|Hge].
  - rewrite map_size_delete_Some.
    + assert (size (filter (λ kv : string * Row,
                (best_score (stats r) < best_score (stats kv.2))%Z) tbl) ≠ 0%nat); [|lia].
      apply map_size_ne_0_lookup. exists (JsString.toLowerCase gone).
      exists rg. by apply map_lookup_filter_Some.
    + exists rg. by apply map_lookup_filter_Some.
  - rewrite map_size_delete_None; [lia|].
    apply map_lookup_filter_None_2. right. intros rg' ?. simplify_eq. simpl. lia.
Qed.

(** X8. Ranks read from one table are consistent: a rank lies between 1
    and the number of records; of two stored players the one with the
    strictly greater [best_score] has the strictly smaller rank; and a
    player has rank 1 exactly when no record has a greater [best_score]. *)
Theorem ranks_follow_scores st tbl a b ra rb q :
  pool st = Some tbl →
  rejects q = false →
  tbl !! JsString.toLowerCase a = Some ra →
  tbl !! JsString.toLowerCase b = Some rb →
  ∃ ka kb,
    get_player st a q = res_json (Player (Some (JsString.toLowerCase a, stats ra, ka)))
    ∧ get_player st b q = res_json (Player (Some (JsString.toLowerCase b, stats rb, kb)))
    ∧ (1 <= ka <= size tbl)%nat
    ∧ (best_score (stats rb) < best_score (stats ra) → (ka < kb)%nat)
    ∧ (ka = 1%nat ↔
       ∀ u r, tbl !! u = Some r → best_score (stats r) <= best_score (stats ra)).
Proof.
  intros Hp Hq Ha Hb. unfold get_player, selectPlayer. rewrite Hp, Hq, Ha, Hb. simpl.
  eexists _, _. split; [done|]. split; [done|]. rewrite !rankAbove_size.
  split; [|split].
  - assert (filter (fun kv : string * Row =>
                      best_score (stats ra) < best_score (stats kv.2)) tbl
              ⊆ delete (JsString.toLowerCase a) tbl) as Hsub.
    { apply map_subseteq_spec. intros u r [Hu Hr]%map_lookup_filter_Some.
      rewrite lookup_delete_ne; [done|]. intros <-.
      simplify_eq. simpl in Hr. lia. }
    apply map_subseteq_size in Hsub. rewrite map_size_delete_Some in Hsub by eauto.
    assert (size tbl ≠ 0%nat) by (apply map_size_ne_0_lookup; eauto). lia.
  - intros Hlt.
    assert (filter (fun kv : string * Row =>
                      best_score (stats ra) < best_score (stats kv.2)) tbl
              ⊂ filter (fun kv : string * Row =>
                          best_score (stats rb) < best_score (stats kv.2)) tbl) as Hsub; [|
      apply map_subset_size in Hsub; lia].
    apply map_subset_alt. split.
    + apply map_filter_subseteq_ext. intros u r _. simpl. lia.
    + exists (JsString.toLowerCase a). split.
      * apply map_lookup_filter_None_2. right. intros r ?. simplify_eq. simpl. lia.
      * exists ra. by apply map_lookup_filter_Some.
  - split.
    + intros Hk u r Hu.
      destruct (Z.le_gt_cases (best_score (stats r)) (best_score (stats ra)))
        as [|Hgt]; [done|].
      assert (size (filter (fun kv : string * Row =>
                best_score (stats ra) < best_score (stats kv.2)) tbl) ≠ 0%nat); [|lia].
      apply map_size_ne_0_lookup. exists u, r. apply map_lookup_filter_Some.
      split; [done|]. simpl. lia.
    + intros Hmax.
      assert (filter (fun kv : string * Row =>
                best_score (stats ra) < best_score (stats kv.2)) tbl = ∅) as ->.
      { apply map_empty_filter. intros u r Hu. simpl.
        specialize (Hmax u r Hu). lia. }
      by rewrite map_size_empty.
Qed.

(** X9. [GET /api/leaderboard] lists no identity twice, and when the table
    has no more records than the effective limit it lists every record. *)
Theorem leaderboard_lists_each_once st limit q tbl :
  pool st = Some tbl →
  rejects q = false →
  ∃ rows,
    get_leaderboard st limit q = res_json (Rows rows)
    ∧ NoDup rows.*1
    ∧ ((size tbl <= Z.to_nat (effectiveLimit limit))%nat →
       ∀ u r, tbl !! u = Some r → (u, stats r) ∈ rows).
Proof.
  intros Hp Hq. unfold get_leaderboard. rewrite Hp, Hq. eexists. split; [done|].
  unfold selectTop.
  set (n := Z.to_nat (effectiveLimit limit)).
  set (sorted := merge_sort scoreDesc (map_to_list tbl)).
  assert (sorted ≡ₚ map_to_list tbl) as Hperm by apply merge_sort_Permutation.
  split.
  - rewrite <- list_fmap_compose.
    assert ((fst ∘ prod_map id stats <$> take n sorted) = (take n sorted).*1) as ->
      by (apply list_fmap_ext; by intros ? [??]).
    rewrite fmap_take. eapply sublist_NoDup; [|apply sublist_take].
    rewrite Hperm. apply NoDup_fst_map_to_list.
  - intros Hsmall u r Hu.
    rewrite take_ge by (by rewrite Hperm, length_map_to_list).
    apply (list_elem_of_fmap_2' _ _ (u, r)); [|done].
    rewrite Hperm. by apply elem_of_map_to_list.
Qed.

(** ** Names that passed validation *)

Lemma rev_app_rev_app s1 s2 s3 :
  String.rev_app (String.rev_app s1 s2) s3 = String.rev_app s2 (s1 +:+ s3).
Proof.
  revert s2 s3. induction s1 as [|c s1 IH]; intros s2 s3; simpl; [done|].
  by rewrite IH.
Qed.

Lemma append_empty_r s : s +:+ EmptyString = s.
Proof.
  induction s as [|c s IH]; [done|].
  change (String c (s +:+ EmptyString) = String c s). by rewrite IH.
Qed.

Lemma rev_rev s : String.rev (String.rev s) = s.
Proof. unfold String.rev. rewrite rev_app_rev_app. apply append_empty_r. Qed.

Lemma every_rev_app p s1 s2 :
  JsString.every p (String.rev_app s1 s2) = JsString.every p s1 && JsString.every p s2.
Proof.
  revert s2. induction s1 as [|c s1 IH]; intros s2; simpl; [done|].
  rewrite IH. simpl. by destruct (p c), (JsString.every p s1).
Qed.

Lemma name_char_is_no_space c :
  JsString.isNameChar c = true → JsString.isWhiteSpace c = false.
Proof. unfold JsString.isNameChar, JsString.isWhiteSpace. lia. Qed.

Lemma trimStart_name s :
  JsString.every JsString.isNameChar s = true → JsString.trimStart s = s.
Proof.
  destruct s as [|c s]; simpl; [done|]. intros [Hc _]%andb_prop.
  by rewrite (name_char_is_no_space c Hc).
Qed.

Lemma trim_name s :
  JsString.every JsString.isNameChar s = true → JsString.trim s = s.
Proof.
  intros Hs. unfold JsString.trim, JsString.trimEnd.
  rewrite (trimStart_name s Hs), trimStart_name, rev_rev; [done|].
  unfold String.rev. by rewrite every_rev_app, Hs.
Qed.

Lemma submittedName_canonical b u :
  submittedName b = Some u → canonical u.
Proof.
  unfold submittedName, canonical. destruct (body_username b) as [| |?|?|s|?]; try done.
  destruct (JsString.isEmpty s); simpl; [done|].
  destruct (badShape _) eqn:Hb; [done|]. intros [= <-].
  unfold badShape in Hb.
  apply orb_false_elim in Hb as [[_ Hlen]%orb_false_elim Htest].
  split; [by apply negb_false_iff|]. by apply Z.ltb_ge.
Qed.

(** X10. The identity a submission is filed under is a normal form: it is
    1 to 20 characters of [a-z0-9_], trimming and lower-casing leave it as
    it is, and a submission that names it directly is filed under the very
    same identity. *)
Theorem submitted_name_is_normal_form b username :
  submittedName b = Some username →
  canonical username
  ∧ 1 <= JsString.length username
  ∧ JsString.trim username = username
  ∧ JsString.toLowerCase username = username
  ∧ submittedName
      {| body_username := Js.Str username;
         body_best_score := body_best_score b;
         body_total_earned := body_total_earned b;
         body_prestiges := body_prestiges b;
         body_clicks := body_clicks b;
         body_play_time := body_play_time b |} = Some username.
Proof.
  intros Hn. pose proof (submittedName_canonical b username Hn) as [Htest Hlen].
  pose proof Htest as [Hne Hevery]%andb_prop.
  assert (1 <= JsString.length username) as Hlen1.
  { destruct username; [done|]. unfold JsString.length. simpl. lia. }
  split; [done|]. split; [done|].
  split; [by apply trim_name|]. split; [by apply name_is_lower_case|].
  unfold submittedName. simpl.
  rewrite (trim_name _ Hevery), (name_is_lower_case _ Hevery).
  destruct (JsString.isEmpty username); [done|]. simpl.
  unfold badShape. rewrite Htest. simpl.
  destruct (Z.ltb_spec (JsString.length username) 1); [lia|].
  by destruct (Z.ltb_spec 20 (JsString.length username)); [lia|].
Qed.

(** ** More on submitting *)

Section Submissions.

Variable StringToNumber : string -> Js.Number.
Variable decimalText : Z -> option Z.

Local Abbreviation post := (post_leaderboard StringToNumber decimalText).
Local Abbreviation accepted := (post_accepted StringToNumber decimalText).
Local Abbreviation value_of := (submittedStats StringToNumber decimalText).

Lemma post_keeps_presence st rq now q :
  onlinePlayers (post st rq now q).2 = onlinePlayers st.
Proof. unfold post_leaderboard. by repeat case_match. Qed.

Lemma post_stamps_at_most_one st rq now q tbl :
  pool st = Some tbl →
  is_Some (pool (post st rq now q).2)
  ∧ (submitTimes (post st rq now q).2 = submitTimes st
     ∨ submitTimes (post st rq now q).2 = <[originOf rq := now]> (submitTimes st)).
Proof.
  intros Hp.
  destruct (Z.lt_ge_cases (now - lastSubmit (submitTimes st) (originOf rq)) 10000) as [Hc|Hc].
  - rewrite (post_cooling_down _ _ _ _ _ _ _ Hp Hc). simpl. rewrite Hp. eauto.
  - destruct (post_passed_rate_check StringToNumber decimalText _ _ _ q _ Hp Hc)
      as (_ & Ht & Hsome). eauto.
Qed.

(** X11. Origins are limited apart from each other: whether a submission
    is answered 429 is the same whether or not a submission from a
    different origin key was handled just before it, whatever that other
    submission was and however it was answered. *)
Theorem other_origins_do_not_interfere st rq now q rq2 now2 q2 :
  originOf rq ≠ originOf rq2 →
  status (post (post st rq now q).2 rq2 now2 q2).1 = 429
  ↔ status (post st rq2 now2 q2).1 = 429.
Proof.
  intros Hne. destruct (pool st) as [tbl|] eqn:Hp.
  2: { by rewrite (post_without_pool _ _ st rq now q Hp). }
  destruct (post_stamps_at_most_one st rq now q tbl Hp) as [[tbl' Hp'] Ht].
  rewrite (post_status_429 _ _ _ rq2 now2 q2 tbl' Hp').
  rewrite (post_status_429 _ _ _ rq2 now2 q2 tbl Hp).
  rewrite !lastSubmit_default.
  destruct Ht as [-> | ->]; [done|]. by rewrite lookup_insert_ne.
Qed.

(** X12. A submission touches one record at most: every identity other
    than the one it is filed under keeps its record as it was, a submission
    that is not answered 200 changes no record at all, no submission ever
    removes a record, and none touches the presence map. *)
Theorem submission_touches_one_record st rq now q :
  (∀ u, submittedName (body rq) ≠ Some u →
        stored (post st rq now q).2 u = stored st u)
  ∧ (status (post st rq now q).1 ≠ 200 →
       ∀ u, stored (post st rq now q).2 u = stored st u)
  ∧ (∀ u, is_Some (stored st u) → is_Some (stored (post st rq now q).2 u))
  ∧ onlinePlayers (post st rq now q).2 = onlinePlayers st.
Proof.
  assert (status (post st rq now q).1 ≠ 200 →
          ∀ u, stored (post st rq now q).2 u = stored st u) as Hrejected.
  { intros Hs u. unfold stored. by rewrite (post_not_accepted _ _ _ _ _ _ Hs). }
  split; [|split; [done|split; [|apply post_keeps_presence]]].
  - intros u Hu.
    destruct (decide (status (post st rq now q).1 = 200)) as [Hs|Hs]; [|by apply Hrejected].
    destruct (accepted _ _ _ _ Hs) as (tbl & u' & v & Hp & _ & Hn & _ & _ & ->).
    unfold stored. rewrite Hp. simpl. apply upsert_lookup_ne. congruence.
  - intros u [row Hrow].
    destruct (decide (status (post st rq now q).1 = 200)) as [Hs|Hs];
      [|by rewrite Hrejected].
    destruct (accepted _ _ _ _ Hs) as (tbl & u' & v & Hp & _ & Hn & _ & _ & ->).
    unfold stored in *. rewrite Hp in Hrow. simpl in *.
    destruct (decide (u' = u)) as [->|Hne].
    + rewrite upsert_lookup. eauto.
    + rewrite upsert_lookup_ne by done. eauto.
Qed.

(** X13. A record that was just deleted does not come back through the
    merge: when [DELETE] of a name went through and a submission for that
    identity is then answered 200, the record holds exactly the values of
    that submission, whatever the deleted record held. *)
Theorem delete_then_submit_starts_afresh st name q rq now q2 :
  rejects q = false →
  submittedName (body rq) = Some (JsString.toLowerCase name) →
  status (post (delete_player st name q).2 rq now q2).1 = 200 →
  ∃ v,
    value_of (body rq) = Some v
    ∧ stored (post (delete_player st name q).2 rq now q2).2 (JsString.toLowerCase name)
        = Some {| stats := v; updated_at := NOW q2 |}.
Proof.
  intros Hq Hn Hs.
  destruct (accepted _ _ _ _ Hs) as (tbl' & u & v & Hp & _ & Hn' & Hv & _ & ->).
  rewrite Hn in Hn'. injection Hn' as <-. exists v. split; [done|].
  unfold delete_player in Hp.
  destruct (pool st) as [tbl|] eqn:Hst; simpl in Hp; [|congruence].
  rewrite Hq in Hp. simpl in Hp. injection Hp as <-.
  unfold stored. simpl. by rewrite upsert_lookup, lookup_delete_eq.
Qed.

(** X14. What was accepted can be read back: after a submission answered
    200, [GET /api/leaderboard/:username] with the identity it was filed
    under answers with a record stamped by that merge whose five columns
    are each at least the submitted value. *)
Theorem accepted_submission_reads_back st rq now q q' :
  status (post st rq now q).1 = 200 →
  rejects q' = false →
  ∃ u v row rank,
    submittedName (body rq) = Some u
    ∧ value_of (body rq) = Some v
    ∧ get_player (post st rq now q).2 u q' = res_json (Player (Some (u, stats row, rank)))
    ∧ stored (post st rq now q).2 u = Some row
    ∧ updated_at row = NOW q
    ∧ ∀ f, column f v <= column f (stats row).
Proof.
  intros Hs Hq'.
  destruct (accepted _ _ _ _ Hs) as (tbl & u & v & Hp & _ & Hn & Hv & _ & ->).
  destruct (submittedName_canonical _ _ Hn) as [[_ Hevery]%andb_prop _].
  exists u, v,
    {| stats := from_option (λ r, greatest (stats r) v) v (tbl !! u);
       updated_at := NOW q |},
    (rankAbove (upsert tbl u v (NOW q))
       (best_score (from_option (λ r, greatest (stats r) v) v (tbl !! u)))).
  split; [done|]. split; [done|].
  unfold get_player, selectPlayer, stored. simpl.
  rewrite Hq', (name_is_lower_case u Hevery), upsert_lookup. simpl.
  split; [done|]. split; [done|]. split; [done|].
  intros f. destruct (tbl !! u) as [old|]; simpl; [|lia].
  rewrite column_greatest. lia.
Qed.

Lemma reapOlder_lookup_eq `{Countable K} cutoff (m : gmap K Z) k :
  reapOlder cutoff m !! k
    = match m !! k with
      | Some t => if t <? cutoff then None else Some t
      | None => None
      end.
Proof.
  unfold reapOlder. rewrite reapOlder_fold_lookup.
  destruct (m !! k) as [t|] eqn:Hk; [|done]. by destruct (t <? cutoff).
Qed.

(** X15. The clean-up never changes how a submission is answered: from
    [now = 10000] on, and as long as [now] is not more than 5000 ms before
    the clean-up's reading, a submission gets the same answer and leaves the
    same table on the cleaned state as on the state left alone. *)
Theorem cleanup_keeps_rate_limit st t_rate t_online rq now q :
  10000 <= now →
  t_rate - 5000 <= now →
  (post (cleanup st t_rate t_online) rq now q).1 = (post st rq now q).1
  ∧ pool (post (cleanup st t_rate t_online) rq now q).2 = pool (post st rq now q).2.
Proof.
  intros Hnow Hrate.
  assert ((now - lastSubmit (reapOlder (t_rate - 15000) (submitTimes st)) (originOf rq)
             <? 10000)
          = (now - lastSubmit (submitTimes st) (originOf rq) <? 10000)) as Hsame.
  { rewrite !lastSubmit_default, reapOlder_lookup_eq.
    destruct (submitTimes st !! originOf rq) as [t|]; [|done].
    destruct (Z.ltb_spec t (t_rate - 15000)); [|done]. simpl.
    destruct (Z.ltb_spec (now - 0) 10000); [lia|].
    by destruct (Z.ltb_spec (now - t) 10000); [lia|]. }
  unfold post_leaderboard, cleanup. simpl. rewrite Hsame.
  destruct (pool st) as [tbl|] eqn:Hp; simpl; rewrite ?Hp; [|done].
  destruct (now - lastSubmit (submitTimes st) (originOf rq) <? 10000);
    simpl; rewrite ?Hp; [done|].
  repeat case_match; simpl; by rewrite ?Hp.
Qed.

(** *** Invariants of the process *)

Local Abbreviation handle_ := (handle StringToNumber decimalText).
Local Abbreviation run_ := (run StringToNumber decimalText).

Lemma post_ping_pool st username t_set t_count :
  pool (post_ping st username t_set t_count).2 = pool st.
Proof. unfold post_ping. simpl. by repeat case_match. Qed.

(** Where a record found after one request comes from: it was there
    before, or the request is a submission filed under this identity. *)
Lemma handle_stored st r u row :
  stored (handle_ st r) u = Some row →
  stored st u = Some row
  ∨ ∃ rq now q v,
      r = Submit rq now q
      ∧ submittedName (body rq) = Some u
      ∧ value_of (body rq) = Some v
      ∧ stats row = from_option (fun old => greatest (stats old) v) v (stored st u).
Proof.
  destruct r as [username t_set t_count| | | |rq now q|name q|t_rate t_online];
    unfold handle.
  - unfold stored. rewrite post_ping_pool. by left.
  - by left.
  - by left.
  - by left.
  - destruct (decide (status (post st rq now q).1 = 200)) as [Hs|Hs].
    + destruct (accepted _ _ _ _ Hs) as (tbl & u' & v & Hp & _ & Hn & Hv & _ & ->).
      unfold stored. rewrite Hp. simpl. destruct (decide (u' = u)) as [->|Hne].
      * rewrite upsert_lookup. intros [= <-]. right. by exists rq, now, q, v.
      * rewrite upsert_lookup_ne by done. by left.
    + unfold stored. rewrite (post_not_accepted _ _ _ _ _ _ Hs). by left.
  - unfold delete_player, stored. destruct (pool st) as [tbl|] eqn:Hp; simpl.
    + destruct (rejects q); simpl; rewrite ?Hp; simpl; [by left|].
      intros [_ H]%lookup_delete_Some. by left.
    + rewrite Hp. by left.
  - by left.
Qed.

Lemma run_cons st r requests : run_ st (r :: requests) = run_ (handle_ st r) requests.
Proof. done. Qed.

(** X16. Every identity in the table has the shape the submit route lets
    through: if that holds of a state (as it does of an empty table), it
    holds after any sequence of requests to the six routes and runs of the
    clean-up. *)
Theorem stored_names_stay_canonical st requests :
  (∀ u row, stored st u = Some row → canonical u) →
  ∀ u row, stored (run_ st requests) u = Some row → canonical u.
Proof.
  revert st. induction requests as [|r requests IH]; intros st Hst; [done|].
  rewrite run_cons. apply IH. intros u row Hrow.
  apply handle_stored in Hrow as [Hrow|(rq & now & q & v & _ & Hn & _)].
  - by eapply Hst.
  - by eapply submittedName_canonical.
Qed.

Lemma submitted_columns_in_range b v f :
  value_of b = Some v → inRange (columnType f) (column f v) = true.
Proof.
  intros Hv.
  destruct (submittedStats_column StringToNumber decimalText b v f Hv) as (n & _ & Hb).
  by apply bind_Some in Hb as (m & e & _ & _ & Hr).
Qed.

(** X17. Every stored value fits its column: if each of the five columns
    of each record lies in the range of its SQL type, the same holds after
    any sequence of requests and clean-ups. *)
Theorem stored_columns_stay_in_range st requests :
  (∀ u row f, stored st u = Some row →
     inRange (columnType f) (column f (stats row)) = true) →
  ∀ u row f, stored (run_ st requests) u = Some row →
    inRange (columnType f) (column f (stats row)) = true.
Proof.
  revert st. induction requests as [|r requests IH]; intros st Hst; [done|].
  rewrite run_cons. apply IH. intros u row f Hrow.
  apply handle_stored in Hrow as [Hrow|(rq & now & q & v & _ & _ & Hv & ->)].
  - by eapply Hst.
  - pose proof (submitted_columns_in_range _ _ f Hv) as Hnew.
    destruct (stored st u) as [old|] eqn:Hold; simpl; [|done].
    rewrite column_greatest.
    destruct (Z.max_spec (column f (stats old)) (column f v)) as [[_ ->]|[_ ->]];
      [done|by eapply Hst].
Qed.

(** X18. Only [DELETE] takes anything away from a record: over any
    sequence of requests and clean-ups in which no [DELETE] names the
    identity, its record stays in the table and none of its five columns
    goes down. *)
Theorem only_delete_lowers_a_record st requests u row f :
  stored st u = Some row →
  Forall (fun r => ∀ name q, r = Delete name q → JsString.toLowerCase name ≠ u)
         requests →
  ∃ row', stored (run_ st requests) u = Some row'
        ∧ column f (stats row) <= column f (stats row').
Proof.
  revert st row. induction requests as [|r requests IH]; intros st row Hrow Hall.
  { exists row. by split. }
  apply Forall_cons in Hall as [Hr Hall]. rewrite run_cons.
  assert (∃ row1, stored (handle_ st r) u = Some row1
                ∧ column f (stats row) <= column f (stats row1)) as (row1 & Hrow1 & Hle).
  { destruct r as [username t_set t_count| | | |rq now q|name q|t_rate t_online];
      unfold handle.
    - exists row. unfold stored in *. by rewrite post_ping_pool.
    - by exists row.
    - by exists row.
    - by exists row.
    - destruct (serve1_row StringToNumber decimalText st (rq, now, q) u row Hrow)
        as (row1 & Hrow1 & E).
      exists row1. split; [done|]. rewrite E, column_foldl_greatest. apply foldl_max_ge.
    - exists row. split; [|done]. unfold delete_player, stored in *.
      destruct (pool st) as [tbl|] eqn:Hp; simpl in *; [|done].
      destruct (rejects q); simpl; rewrite ?Hp; simpl; [done|].
      rewrite lookup_delete_ne; [done|]. by eapply Hr.
    - by exists row. }
  destruct (IH _ _ Hrow1 Hall) as (row' & Hrow' & Hle'). exists row'. split; [done|lia].
Qed.

(** *** How often an origin gets through *)

Lemma serve1_stamp st ev ip :
  (originOf ev.1.1 = ip
   ∧ status (serve1 StringToNumber decimalText st ev).1 ≠ 503
   ∧ status (serve1 StringToNumber decimalText st ev).1 ≠ 429
   ∧ 10000 <= ev.1.2 - lastSubmit (submitTimes st) ip
   ∧ lastSubmit (submitTimes (serve1 StringToNumber decimalText st ev).2) ip = ev.1.2)
  ∨ ((originOf ev.1.1 ≠ ip
      ∨ status (serve1 StringToNumber decimalText st ev).1 = 503
      ∨ status (serve1 StringToNumber decimalText st ev).1 = 429)
     ∧ lastSubmit (submitTimes (serve1 StringToNumber decimalText st ev).2) ip
         = lastSubmit (submitTimes st) ip).
Proof.
  unfold serve1. destruct ev as [[rq now] q]. simpl.
  destruct (pool st) as [tbl|] eqn:Hp.
  2: { right. rewrite (post_without_pool _ _ st rq now q Hp). simpl. auto. }
  destruct (Z.lt_ge_cases (now - lastSubmit (submitTimes st) (originOf rq)) 10000) as [Hc|Hc].
  { right. rewrite (post_cooling_down _ _ _ _ _ _ _ Hp Hc). simpl. auto. }
  destruct (post_passed_rate_check StringToNumber decimalText _ _ _ q _ Hp Hc)
    as (H429 & Ht & _).
  assert (status (post st rq now q).1 ≠ 503) as H503.
  { destruct (submittedName (body rq)) as [u|] eqn:Hn.
    - rewrite (post_well_formed _ _ _ _ _ q _ _ Hp Hc Hn).
      by destruct (submitQuery _ _ _ _ _ _).
    - by destruct (post_malformed StringToNumber decimalText _ _ _ q _ Hp Hc Hn) as [-> _]. }
  destruct (decide (originOf rq = ip)) as [<-|Hne].
  - left. repeat split; try done.
    by rewrite lastSubmit_default, Ht, lookup_insert_eq.
  - right. split; [by left|]. by rewrite !lastSubmit_default, Ht, lookup_insert_ne.
Qed.

Lemma passedAt_cons ip st ev rest :
  passedAt StringToNumber decimalText ip st (ev :: rest)
    = (if bool_decide (originOf ev.1.1 = ip)
          && negb (status (serve1 StringToNumber decimalText st ev).1 =? 503)
          && negb (status (serve1 StringToNumber decimalText st ev).1 =? 429)
       then [ev.1.2] else [])
      ++ passedAt StringToNumber decimalText ip (serve1 StringToNumber decimalText st ev).2 rest.
Proof.
  simpl. destruct (serve1 StringToNumber decimalText st ev) as [resp st']. simpl.
  by destruct (_ && _ && _).
Qed.

(** X19. One origin gets past the rate check at most once in ten seconds:
    in any run of submissions, of two submissions from the same origin that
    both got past it (answered 400, 500 or 200) the later one was handled
    at least 10000 ms after the earlier one, by the clock readings the
    handler took, and the first of them at least 10000 ms after the time
    recorded for the origin at the start. No assumption on the clock is
    needed. *)
Theorem passes_are_ten_seconds_apart ip st events :
  StronglySorted (fun earlier later => 10000 <= later - earlier)
                 (passedAt StringToNumber decimalText ip st events)
  ∧ Forall (fun t => 10000 <= t - lastSubmit (submitTimes st) ip)
           (passedAt StringToNumber decimalText ip st events).
Proof.
  revert st. induction events as [|ev events IH]; intros st.
  { split; constructor. }
  rewrite passedAt_cons.
  destruct (IH (serve1 StringToNumber decimalText st ev).2) as [Hsorted Hall].
  destruct (serve1_stamp st ev ip) as [(Hip & H503 & H429 & Hgap & Hlast)|[Hnot Hlast]].
  - rewrite bool_decide_eq_true_2 by done.
    apply Z.eqb_neq in H503, H429. rewrite H503, H429. simpl.
    rewrite Hlast in Hall. split.
    + by constructor.
    + constructor; [done|]. eapply Forall_impl; [exact Hall|]. simpl. intros t Ht. lia.
  - rewrite Hlast in Hall.
    assert (bool_decide (originOf ev.1.1 = ip)
            && negb (status (serve1 StringToNumber decimalText st ev).1 =? 503)
            && negb (status (serve1 StringToNumber decimalText st ev).1 =? 429) = false)
      as ->; [|done].
    destruct Hnot as [Hne|[Hs|Hs]].
    + by rewrite bool_decide_eq_false_2.
    + rewrite Hs. simpl. by rewrite andb_false_r.
    + rewrite Hs. simpl. by rewrite andb_false_r.
Qed.

(** X20. An accepted submission never costs the player a place: when the
    identity already had a record, the rank read for it after a submission
    answered 200 is at most the rank read before. *)
Theorem accepted_submission_never_worsens_rank st rq now q q' u s0 before :
  status (post st rq now q).1 = 200 →
  rejects q' = false →
  submittedName (body rq) = Some u →
  get_player st u q' = res_json (Player (Some (u, s0, before))) →
  ∃ s1 after,
    get_player (post st rq now q).2 u q' = res_json (Player (Some (u, s1, after)))
    ∧ (after <= before)%nat
    ∧ ∀ f, column f s0 <= column f s1.
Proof.
  intros Hs Hq' Hn Hbefore.
  destruct (accepted _ _ _ _ Hs) as (tbl & u' & v & Hp & _ & Hn' & Hv & _ & ->).
  rewrite Hn in Hn'. injection Hn' as <-.
  destruct (submittedName_canonical _ _ Hn) as [[_ Hevery]%andb_prop _].
  unfold get_player, selectPlayer in *. simpl.
  rewrite Hp, Hq', (name_is_lower_case u Hevery) in Hbefore.
  rewrite Hq', (name_is_lower_case u Hevery), upsert_lookup.
  destruct (tbl !! u) as [old|] eqn:Hold; simpl in *; [|done].
  injection Hbefore as <- <-. eexists _, _. split; [done|]. split.
  - rewrite !rankAbove_size. apply Nat.add_le_mono_r, map_subseteq_size.
    unfold upsert. rewrite Hold.
    apply map_subseteq_spec. intros k r [Hk Hr]%map_lookup_filter_Some.
    apply map_lookup_filter_Some. simpl in *.
    destruct (decide (k = u)) as [->|Hne].
    + rewrite lookup_insert_eq in Hk. injection Hk as <-. simpl in Hr. lia.
    + rewrite lookup_insert_ne in Hk by done. split; [done|]. simpl. lia.
  - intros f. rewrite column_greatest. lia.
Qed.

End Submissions.

(** X21. Running the clean-up again changes nothing a single run with the
    later readings would not have done: two clean-ups in a row leave the
    state one clean-up with the greater of the two readings leaves, so a
    repeated clean-up with the same readings is the same as one. *)
Theorem cleanup_twice_is_cleanup_once st a1 b1 a2 b2 :
  cleanup (cleanup st a1 b1) a2 b2 = cleanup st (Z.max a1 a2) (Z.max b1 b2).
Proof.
  unfold cleanup. simpl. f_equal.
  - rewrite !reapOlder_filter, map_filter_filter. apply map_filter_ext.
    intros ip t _. simpl. lia.
  - rewrite !reapOlder_filter, map_filter_filter. apply map_filter_ext.
    intros u t _. simpl. lia.
Qed.

(** ** The further theorems at sample inputs *)

Lemma ping_counts_for_one_window_witness :
  " Bob "%string ≠ EmptyString
  ∧ get_online (post_ping Samples.fresh (Js.Str " Bob ") 1700000000000 1700000000000).2
      1700000059999 = res_json (Online 1)
  ∧ get_online (post_ping Samples.fresh (Js.Str " Bob ") 1700000000000 1700000000000).2
      1700000060000 = res_json (Online 0).
Proof.
  assert (" Bob "%string ≠ EmptyString) as Hs by discriminate.
  split; [exact Hs|]. split.
  - exact (ping_counts_for_one_window Samples.fresh " Bob " 1700000000000 1700000000000
             1700000059999 Hs).
  - exact (ping_counts_for_one_window Samples.fresh " Bob " 1700000000000 1700000000000
             1700000060000 Hs).
Defined.

Lemma online_count_only_falls_witness :
  let st := (post_ping Samples.fresh (Js.Str "bob") 1700000000000 1700000000000).2 in
  1700000030000 <= 1700000090000
  ∧ ∃ n1 n2,
      get_online st 1700000030000 = res_json (Online n1)
      ∧ get_online st 1700000090000 = res_json (Online n2)
      ∧ (n2 <= n1 <= size (onlinePlayers st))%nat.
Proof.
  intros st.
  assert (1700000030000 <= 1700000090000) as Hle by (vm_compute; discriminate).
  split; [exact Hle|].
  exact (online_count_only_falls st 1700000030000 1700000090000 Hle).
Defined.

Lemma ping_raises_count_by_at_most_one_witness :
  1700000000001 - 1700000000000 < 60000
  ∧ ∃ before after,
      get_online Samples.fresh 1700000000001 = res_json (Online before)
      ∧ (post_ping Samples.fresh (Js.Str "bob") 1700000000000 1700000000001).1
          = res_json (Online after)
      ∧ (before <= after <= before + 1)%nat.
Proof.
  assert (1700000000001 - 1700000000000 < 60000) as Hrecent by reflexivity.
  split; [exact Hrecent|].
  exact (ping_raises_count_by_at_most_one Samples.fresh (Js.Str "bob")
           1700000000000 1700000000001 Hrecent).
Defined.

Lemma cleanup_keeps_online_count_witness :
  let st := (post_ping Samples.fresh (Js.Str "bob") 1700000000000 1700000000000).2 in
  1700000300000 <= 1700000300005
  ∧ get_online (cleanup st 1700000300000 1700000300000) 1700000300005
      = get_online st 1700000300005
  ∧ (post_ping (cleanup st 1700000300000 1700000300000) (Js.Str "ann")
       1700000300005 1700000300005).1
      = (post_ping st (Js.Str "ann") 1700000300005 1700000300005).1.
Proof.
  intros st.
  assert (1700000300000 <= 1700000300005) as Hle by (vm_compute; discriminate).
  split; [exact Hle|].
  exact (cleanup_keeps_online_count st 1700000300000 1700000300000 1700000300005
           (Js.Str "ann") 1700000300005 Hle).
Defined.

Lemma delete_removes_one_record_witness :
  let r := delete_player Samples.fourPlayers "Ben" (Samples.succeeds 1) in
  is_Some (pool Samples.fourPlayers)
  ∧ delete_status r.1 = 200
  ∧ get_player r.2 "Ben" (Samples.succeeds 2) = res_json (Player None)
  ∧ stored r.2 "cat" = stored Samples.fourPlayers "cat"
  ∧ delete_player r.2 "Ben" (Samples.succeeds 2) = r.
Proof.
  intros r. split; [by eexists|].
  destruct (delete_removes_one_record Samples.fourPlayers _ "Ben" (Samples.succeeds 1)
              eq_refl eq_refl) as (Hs & Hread & Hother & _ & Hagain).
  split; [exact Hs|]. split; [exact (Hread (Samples.succeeds 2) eq_refl)|].
  split; [apply Hother; discriminate|exact (Hagain (Samples.succeeds 2) eq_refl)].
Defined.

Lemma delete_moves_up_lower_players_witness :
  JsString.toLowerCase "ann" ≠ JsString.toLowerCase "dan"
  ∧ ∃ before after,
      get_player Samples.fourPlayers "dan" (Samples.succeeds 1)
        = res_json (Player (Some ("dan"%string, mkStats 50 0 0 0 0, before)))
      ∧ get_player (delete_player Samples.fourPlayers "ann" (Samples.succeeds 1)).2
          "dan" (Samples.succeeds 1)
          = res_json (Player (Some ("dan"%string, mkStats 50 0 0 0 0, after)))
      ∧ before = (after + 1)%nat.
Proof.
  assert (JsString.toLowerCase "ann" ≠ JsString.toLowerCase "dan") as Hne
    by (vm_compute; discriminate).
  split; [exact Hne|].
  exact (delete_moves_up_lower_players Samples.fourPlayers _ "ann" "dan"
           (Samples.player 100) (Samples.player 50) (Samples.succeeds 1)
           eq_refl eq_refl eq_refl eq_refl Hne).
Defined.

Lemma ranks_follow_scores_witness :
  ∃ ka kb,
    get_player Samples.fourPlayers "ann" (Samples.succeeds 1)
      = res_json (Player (Some ("ann"%string, mkStats 100 0 0 0 0, ka)))
    ∧ get_player Samples.fourPlayers "cat" (Samples.succeeds 1)
        = res_json (Player (Some ("cat"%string, mkStats 80 0 0 0 0, kb)))
    ∧ (1 <= ka <= 4)%nat
    ∧ (80 < 100 → (ka < kb)%nat).
Proof.
  destruct (ranks_follow_scores Samples.fourPlayers _ "ann" "cat"
              (Samples.player 100) (Samples.player 80) (Samples.succeeds 1)
              eq_refl eq_refl eq_refl eq_refl)
    as (ka & kb & Ha & Hb & Hbounds & Horder & _).
  exists ka, kb. split; [exact Ha|]. split; [exact Hb|].
  split; [exact Hbounds|exact Horder].
Defined.

Lemma leaderboard_lists_each_once_witness :
  ∃ rows,
    get_leaderboard Samples.fourPlayers None (Samples.succeeds 1) = res_json (Rows rows)
    ∧ NoDup rows.*1
    ∧ ∀ u r, stored Samples.fourPlayers u = Some r → (u, stats r) ∈ rows.
Proof.
  destruct (leaderboard_lists_each_once Samples.fourPlayers None (Samples.succeeds 1) _
              eq_refl eq_refl) as (rows & Hrows & Hdup & Hall).
  exists rows. split; [exact Hrows|]. split; [exact Hdup|].
  intros u r Hu. apply Hall; [vm_compute; lia|exact Hu].
Defined.

Lemma submitted_name_is_normal_form_witness :
  let b := Samples.scores " Alice_01 " (Samples.number 5) in
  submittedName b = Some "alice_01"%string
  ∧ canonical "alice_01"
  ∧ JsString.trim "alice_01" = "alice_01"%string
  ∧ JsString.toLowerCase "alice_01" = "alice_01"%string.
Proof.
  intros b. split; [reflexivity|].
  destruct (submitted_name_is_normal_form b "alice_01" eq_refl)
    as (Hc & _ & Ht & Hl & _).
  split; [exact Hc|]. split; [exact Ht|exact Hl].
Defined.

Lemma other_origins_do_not_interfere_witness :
  let rq := Samples.from "10.0.0.1" (Samples.scores "ann" (Samples.number 5)) in
  let rq2 := Samples.from "10.0.0.2" (Samples.scores "ben" (Samples.number 6)) in
  originOf rq ≠ originOf rq2
  ∧ (status (post_leaderboard notNumeric plainText
               (post_leaderboard notNumeric plainText Samples.fresh rq 20000
                  (Samples.succeeds 1)).2 rq2 20001 (Samples.succeeds 2)).1 = 429
     ↔ status (post_leaderboard notNumeric plainText Samples.fresh rq2 20001
                 (Samples.succeeds 2)).1 = 429).
Proof.
  intros rq rq2.
  assert (originOf rq ≠ originOf rq2) as Hne by (vm_compute; discriminate).
  split; [exact Hne|].
  exact (other_origins_do_not_interfere notNumeric plainText Samples.fresh rq 20000
           (Samples.succeeds 1) rq2 20001 (Samples.succeeds 2) Hne).
Defined.

Lemma delete_then_submit_starts_afresh_witness :
  let rq := Samples.from "10.0.0.1" (Samples.scores "bob" (Samples.number 7)) in
  let st1 := (delete_player Samples.holding "Bob" (Samples.succeeds 1)).2 in
  stored Samples.holding "bob" = Some Samples.bobRow
  ∧ submittedName (body rq) = Some (JsString.toLowerCase "Bob")
  ∧ status (post_leaderboard notNumeric plainText st1 rq 20000 (Samples.succeeds 2)).1
      = 200
  ∧ ∃ v,
      submittedStats notNumeric plainText (body rq) = Some v
      ∧ stored (post_leaderboard notNumeric plainText st1 rq 20000
                  (Samples.succeeds 2)).2 (JsString.toLowerCase "Bob")
          = Some {| stats := v; updated_at := 2 |}.
Proof.
  intros rq st1. split; [reflexivity|]. split; [reflexivity|]. split; [reflexivity|].
  exact (delete_then_submit_starts_afresh notNumeric plainText Samples.holding "Bob"
           (Samples.succeeds 1) rq 20000 (Samples.succeeds 2) eq_refl eq_refl eq_refl).
Defined.

Lemma accepted_submission_reads_back_witness :
  let rq := Samples.from "10.0.0.1" (Samples.scores " Bob " (Samples.number 7)) in
  let r := post_leaderboard notNumeric plainText Samples.holding rq 20000
             (Samples.succeeds 1) in
  status r.1 = 200
  ∧ ∃ u v row rank,
      submittedName (body rq) = Some u
      ∧ submittedStats notNumeric plainText (body rq) = Some v
      ∧ get_player r.2 u (Samples.succeeds 2)
          = res_json (Player (Some (u, stats row, rank)))
      ∧ stored r.2 u = Some row
      ∧ updated_at row = 1
      ∧ ∀ f, column f v <= column f (stats row).
Proof.
  intros rq r. split; [reflexivity|].
  exact (accepted_submission_reads_back notNumeric plainText Samples.holding rq 20000
           (Samples.succeeds 1) (Samples.succeeds 2) eq_refl eq_refl).
Defined.

Lemma cleanup_keeps_rate_limit_witness :
  let rq := Samples.from "10.0.0.1" (Samples.scores "bob" (Samples.number 7)) in
  let st := (post_leaderboard notNumeric plainText Samples.fresh rq 1700000000000
               (Samples.succeeds 1)).2 in
  let cleaned := cleanup st 1700000300000 1700000300000 in
  10000 <= 1700000300001
  ∧ 1700000300000 - 5000 <= 1700000300001
  ∧ submitTimes st !! Some "10.0.0.1"%string = Some 1700000000000
  ∧ submitTimes cleaned !! Some "10.0.0.1"%string = None
  ∧ (post_leaderboard notNumeric plainText cleaned rq 1700000300001 (Samples.succeeds 2)).1
      = (post_leaderboard notNumeric plainText st rq 1700000300001 (Samples.succeeds 2)).1
  ∧ pool (post_leaderboard notNumeric plainText cleaned rq 1700000300001
            (Samples.succeeds 2)).2
      = pool (post_leaderboard notNumeric plainText st rq 1700000300001
                (Samples.succeeds 2)).2.
Proof.
  intros rq st cleaned.
  assert (10000 <= 1700000300001) as Hnow by (vm_compute; discriminate).
  assert (1700000300000 - 5000 <= 1700000300001) as Hrate by (vm_compute; discriminate).
  split; [exact Hnow|]. split; [exact Hrate|]. split; [reflexivity|]. split; [reflexivity|].
  exact (cleanup_keeps_rate_limit notNumeric plainText st 1700000300000 1700000300000
           rq 1700000300001 (Samples.succeeds 2) Hnow Hrate).
Defined.

Lemma fresh_table_is_empty u row : stored Samples.fresh u = Some row → False.
Proof. unfold stored. simpl. by rewrite lookup_empty. Qed.

Lemma stored_names_stay_canonical_witness :
  let requests :=
    [ Submit (Samples.from "10.0.0.1" (Samples.scores " Bob " (Samples.number 7)))
        1700000000000 (Samples.succeeds 1);
      Ping (Js.Str "   ") 1700000000001 1700000000001;
      Cleanup 1700000300000 1700000300000;
      Delete "ann" (Samples.succeeds 2) ] in
  stored (run notNumeric plainText Samples.fresh requests) "bob"
    = Some {| stats := mkStats 7 0 0 0 0; updated_at := 1 |}
  ∧ ∀ u row, stored (run notNumeric plainText Samples.fresh requests) u = Some row →
             canonical u.
Proof.
  intros requests. split; [reflexivity|].
  exact (stored_names_stay_canonical notNumeric plainText Samples.fresh requests
           (fun u row H => False_ind _ (fresh_table_is_empty u row H))).
Defined.

Lemma stored_columns_stay_in_range_witness :
  let requests :=
    [ Submit (Samples.from "10.0.0.1" (Samples.scores "bob" (Samples.number (-7))))
        1700000000000 (Samples.succeeds 1);
      Submit (Samples.from "10.0.0.2" (Samples.scores "bob" (Samples.number 9)))
        1700000000001 (Samples.succeeds 2) ] in
  stored (run notNumeric plainText Samples.fresh requests) "bob"
    = Some {| stats := mkStats 9 0 0 0 0; updated_at := 2 |}
  ∧ ∀ u row f, stored (run notNumeric plainText Samples.fresh requests) u = Some row →
               inRange (columnType f) (column f (stats row)) = true.
Proof.
  intros requests. split; [reflexivity|].
  exact (stored_columns_stay_in_range notNumeric plainText Samples.fresh requests
           (fun u row f H => False_ind _ (fresh_table_is_empty u row H))).
Defined.

Lemma only_delete_lowers_a_record_witness :
  let requests :=
    [ Submit (Samples.from "10.0.0.1" (Samples.scores "bob" (Samples.number 7)))
        1700000000000 (Samples.succeeds 1);
      Delete "ann" (Samples.succeeds 2);
      Cleanup 1700000300000 1700000300000 ] in
  stored Samples.holding "bob" = Some Samples.bobRow
  ∧ ∃ row', stored (run notNumeric plainText Samples.holding requests) "bob" = Some row'
          ∧ column BestScore (stats Samples.bobRow) <= column BestScore (stats row').
Proof.
  intros requests. split; [reflexivity|].
  apply (only_delete_lowers_a_record notNumeric plainText Samples.holding requests "bob"
           Samples.bobRow BestScore eq_refl).
  repeat constructor; intros name q H; try discriminate H.
  injection H as <- <-. vm_compute. discriminate.
Defined.

Lemma accepted_submission_never_worsens_rank_witness :
  let rq := Samples.from "10.0.0.1" (Samples.scores "dan" (Samples.number 90)) in
  let r := post_leaderboard notNumeric plainText Samples.fourPlayers rq 1700000000000
             (Samples.succeeds 1) in
  status r.1 = 200
  ∧ get_player Samples.fourPlayers "dan" (Samples.succeeds 2)
      = res_json (Player (Some ("dan"%string, mkStats 50 0 0 0 0, 4%nat)))
  ∧ ∃ s1 after,
      get_player r.2 "dan" (Samples.succeeds 2)
        = res_json (Player (Some ("dan"%string, s1, after)))
      ∧ (after <= 4)%nat
      ∧ ∀ f, column f (mkStats 50 0 0 0 0) <= column f s1.
Proof.
  intros rq r. split; [reflexivity|]. split; [reflexivity|].
  exact (accepted_submission_never_worsens_rank notNumeric plainText Samples.fourPlayers
           rq 1700000000000 (Samples.succeeds 1) (Samples.succeeds 2) "dan"
           (mkStats 50 0 0 0 0) 4%nat eq_refl eq_refl eq_refl eq_refl).
Defined.
